(** * A shallow embedding of [src/deploy.py]

    The Streamlit app uploads a video, normalises it with FFmpeg, runs a
    YOLO detector on every frame through OpenCV and offers the annotated
    video back.  The program is a single Python script; we model

    - the Python values it manipulates (paths, byte strings, images,
      exceptions) as Rocq data;
    - the effects it performs (file system, UI messages, the Streamlit
      resource cache, the local variables of [main] read by its [finally]
      block) as explicit state passing in a small state/exception monad;
    - the external collaborators (FFmpeg, OpenCV's decoder and writer, the
      detector, the YOLO constructor) as the fields of an environment
      record [env], left arbitrary in every theorem. *)

From Stdlib Require Import ZArith QArith Ascii.
From stdpp Require Import base gmap strings list pretty.

Local Open Scope Z_scope.

(* ------------------------------------------------------------------ *)
(** ** Values *)

(** An image as OpenCV hands it to Python (a numpy array). *)
Record image := mkImage { img_w : Z; img_h : Z; pixels : list Z }.

(** One detection box of an ultralytics [Results] object. *)
Record box := mkBox { cls : Z; score : Q; xyxy : Z * Z * Z * Z }.

(** An ultralytics [Results] object: the boxes and the original image. *)
Record result := mkResult { boxes : list box; orig_img : image }.

(** A video container as written by [cv2.VideoWriter]: four-character
    code, frame rate, geometry and the frames written so far. *)
Record container := mkContainer {
  fourcc : Z; c_fps : Q; c_w : Z; c_h : Z; c_frames : list image }.

(** The contents of a file: raw bytes, or a video container. *)
Inductive contents :=
| Raw (b : list Byte.byte)
| Mp4 (c : container).

(** The stream a [cv2.VideoCapture] yields once opened: the frames
    [cap.read()] returns until it reports end of input, and the values of
    [CAP_PROP_FRAME_WIDTH], [CAP_PROP_FRAME_HEIGHT] and [CAP_PROP_FPS]. *)
Record stream := mkStream { s_frames : list image; s_w : Z; s_h : Z; s_fps : Q }.

(** A loaded YOLO object: the path it was built from and its identity
    (Python object identity, a fresh number per construction). *)
Record handle := mkHandle { model_path : string; model_id : nat }.

(** Python exceptions raised on the paths of the program.
    [CalledProcessError] is [subprocess.CalledProcessError];
    [Exception cls msg] any other subclass of [Exception];
    [BaseException cls msg] those that are not ([KeyboardInterrupt], ...). *)
Inductive exn :=
| CalledProcessError (returncode : Z) (cmd : list string) (stdout stderr : string)
| Exception (cls_name : string) (msg : string)
| BaseException (cls_name : string) (msg : string).

(** [isinstance(e, Exception)]. *)
Definition is_Exception (e : exn) : bool :=
  match e with
  | CalledProcessError _ _ _ _ | Exception _ _ => true
  | BaseException _ _ => false
  end.

(** Python's [repr] of a list of strings, as [str(CalledProcessError)]
    prints the command (quotes simplified to single quotes). *)
Definition quote : string := String (Ascii.ascii_of_nat 39) EmptyString.

Definition repr_list (l : list string) : string :=
  "[" +:+ String.concat ", " (map (fun s => quote +:+ s +:+ quote) l) +:+ "]".

(** [str(e)]. *)
Definition py_str (e : exn) : string :=
  match e with
  | CalledProcessError rc cmd _ _ =>
      "Command " +:+ quote +:+ repr_list cmd +:+ quote
        +:+ " returned non-zero exit status " +:+ pretty rc +:+ "."
  | Exception _ m | BaseException _ m => m
  end.

(** What the user sees: the Streamlit calls of the script, in order. *)
Inductive ui_event :=
| Title (s : string)
| Write (s : string)
| Error (s : string)
| Info (s : string)
| Success (s : string)
| FileUploader (label : string) (types : list string)
| Video (data : contents)
| DownloadButton (label : string) (data : contents) (file_name mime : string).

(** An uploaded file ([st.file_uploader]'s [UploadedFile]). *)
Record upload := mkUpload { up_name : string; up_data : list Byte.byte }.

(** The local variables of [main] that its [finally] block reads. *)
Record frame_locals := mkLocals {
  input_video_path : option string;
  downscaled_video_path : option string;
  output_video_path : option string }.

Definition no_locals : frame_locals := mkLocals None None None.

(** The state of the process.  [created_tmp] records, in order, the paths
    of the temporary files the script created; [yolo_calls] counts the
    constructions of YOLO objects (it also gives their identities). *)
Record world := mkWorld {
  fs : gmap string contents;
  ui : list ui_event;
  tmp_counter : nat;
  created_tmp : list string;
  locals : frame_locals;
  resource_cache : gmap string handle;
  yolo_calls : nat }.

Definition set_fs (m : gmap string contents) (w : world) : world :=
  mkWorld m (ui w) (tmp_counter w) (created_tmp w) (locals w) (resource_cache w) (yolo_calls w).
Definition set_ui (u : list ui_event) (w : world) : world :=
  mkWorld (fs w) u (tmp_counter w) (created_tmp w) (locals w) (resource_cache w) (yolo_calls w).
Definition set_counter (n : nat) (c : list string) (w : world) : world :=
  mkWorld (fs w) (ui w) n c (locals w) (resource_cache w) (yolo_calls w).
Definition set_cache (m : gmap string handle) (n : nat) (w : world) : world :=
  mkWorld (fs w) (ui w) (tmp_counter w) (created_tmp w) (locals w) m n.
Definition set_locals (l : frame_locals) (w : world) : world :=
  mkWorld (fs w) (ui w) (tmp_counter w) (created_tmp w) l (resource_cache w) (yolo_calls w).

(** What [subprocess.run] observes of a child process: either it could
    not be started (the exception [subprocess.run] raises) or it exited
    with a return code, its stdout and stderr, and the file system it left
    behind. *)
Inductive proc_outcome :=
| SpawnFailed (e : exn)
| Completed (returncode : Z) (stdout stderr : string) (after : gmap string contents).

(** The external collaborators.  Every theorem holds for every [env]. *)
Record env := mkEnv {
  (** [cv2.VideoCapture(path)]: how OpenCV decodes a file; [None] when
      [cap.isOpened()] is false. *)
  decode : contents -> option stream;
  (** [cv2.VideoWriter(path, fourcc, fps, (w, h)).isOpened()]. *)
  writer_opens : string -> Z -> Q -> Z * Z -> bool;
  (** Running an external command on the current file system. *)
  exec : list string -> gmap string contents -> proc_outcome;
  (** [model(frame, imgsz=..., conf=...)]: the list of results, or the
      exception inference raises. *)
  infer : handle -> image -> Z -> Q -> exn + list result;
  (** [result.plot()]: the annotated copy of the image. *)
  plot : result -> image;
  (** [YOLO(path)]: [Some e] when the constructor raises [e]. *)
  yolo_error : string -> gmap string contents -> option exn;
  (** Writing a file: [Some e] when the write raises [e]. *)
  write_error : string -> contents -> option exn;
  (** The size on disk of a video container written by OpenCV. *)
  container_size : container -> nat }.

(* ------------------------------------------------------------------ *)
(** ** The state/exception monad *)

Inductive outcome (A : Type) :=
| Ok (a : A)
| Raise (e : exn).
Arguments Ok {A} a.
Arguments Raise {A} e.

Definition M (A : Type) : Type := world -> outcome A * world.

Definition m_ret {A} (a : A) : M A := fun w => (Ok a, w).
Definition m_bind {A B} (k : A -> M B) (m : M A) : M B :=
  fun w => match m w with
           | (Ok a, w') => k a w'
           | (Raise e, w') => (Raise e, w')
           end.

Global Instance M_ret : MRet M := @m_ret.
Global Instance M_bind : MBind M := @m_bind.

(** [raise e]. *)
Definition py_raise {A} (e : exn) : M A := fun w => (Raise e, w).

Definition gets {A} (f : world -> A) : M A := fun w => (Ok (f w), w).
Definition modify (f : world -> world) : M unit := fun w => (Ok tt, f w).

(** [try: body / except ...: handler(e) / finally: fin].  The handler
    chooser returns the [except] clause matching the exception, if any; an
    unmatched exception goes through [fin] and is re-raised, and an
    exception raised by [fin] replaces the pending outcome. *)
Definition py_try {A} (body : M A) (handler : exn -> option (M A)) (fin : M unit) : M A :=
  fun w =>
    let '(r1, w1) := body w in
    let '(r2, w2) :=
      match r1 with
      | Ok _ => (r1, w1)
      | Raise e => match handler e with Some h => h w1 | None => (r1, w1) end
      end in
    let '(r3, w3) := fin w2 in
    match r3 with
    | Ok _ => (r2, w3)
    | Raise e => (Raise e, w3)
    end.

(** [try: body / except Exception as e: handler(e)]. *)
Definition try_except_Exception {A} (body : M A) (handler : exn -> M A) : M A :=
  py_try body (fun e => if is_Exception e then Some (handler e) else None) (m_ret tt).

(* ------------------------------------------------------------------ *)
(** ** Python and library primitives *)

Definition FileNotFoundError (p : string) : exn :=
  Exception "FileNotFoundError" ("[Errno 2] No such file or directory: " +:+ quote +:+ p +:+ quote).

Definition st_event (e : ui_event) : M unit := modify (fun w => set_ui (ui w ++ [e]) w).
Definition st_title (s : string) : M unit := st_event (Title s).
Definition st_write (s : string) : M unit := st_event (Write s).
Definition st_error (s : string) : M unit := st_event (Error s).
Definition st_info (s : string) : M unit := st_event (Info s).
Definition st_success (s : string) : M unit := st_event (Success s).
Definition st_video (d : contents) : M unit := st_event (Video d).
Definition st_download_button (label : string) (d : contents) (file_name mime : string) : M unit :=
  st_event (DownloadButton label d file_name mime).

(** [st.file_uploader(label, type=types)]: shows the widget and returns
    what the user uploaded ([None] when nothing is uploaded yet). *)
Definition st_file_uploader (label : string) (types : list string) (up : option upload)
  : M (option upload) :=
  st_event (FileUploader label types);; mret up.

(** [os.path.exists(p)]. *)
Definition os_path_exists (p : string) : M bool :=
  gets (fun w => bool_decide (is_Some (fs w !! p))).

(** [os.remove(p)]. *)
Definition os_remove (p : string) : M unit :=
  fun w => match fs w !! p with
           | Some _ => (Ok tt, set_fs (delete p (fs w)) w)
           | None => (Raise (FileNotFoundError p), w)
           end.

(** [open(p, "rb").read()]. *)
Definition read_file (p : string) : M contents :=
  fun w => match fs w !! p with
           | Some c => (Ok c, w)
           | None => (Raise (FileNotFoundError p), w)
           end.

(** Writing [c] as the whole contents of the file [p]. *)
Definition write_file (E : env) (p : string) (c : contents) : M unit :=
  fun w => match write_error E p c with
           | Some e => (Raise e, w)
           | None => (Ok tt, set_fs (<[p := c]> (fs w)) w)
           end.

(** [os.path.getsize(p)]. *)
Definition os_path_getsize (E : env) (p : string) : M nat :=
  fun w => match fs w !! p with
           | Some (Raw b) => (Ok (length b), w)
           | Some (Mp4 c) => (Ok (container_size E c), w)
           | None => (Raise (FileNotFoundError p), w)
           end.

(** [os.path.splitext(p)[1]] (posixpath): the extension, from the last
    dot after the last slash, unless the base name before it is only dots. *)
Fixpoint rfind_aux (c : Ascii.ascii) (l : list Ascii.ascii) (i best : Z) : Z :=
  match l with
  | [] => best
  | x :: r => rfind_aux c r (i + 1) (if Ascii.eqb x c then i else best)
  end.

Definition rfind (c : Ascii.ascii) (s : string) : Z :=
  rfind_aux c (String.list_ascii_of_string s) 0 (-1).

Definition all_dots (s : string) : bool :=
  forallb (fun x => Ascii.eqb x "."%char) (String.list_ascii_of_string s).

Definition splitext_ext (p : string) : string :=
  let sepIndex := rfind "/"%char p in
  let dotIndex := rfind "."%char p in
  if sepIndex <? dotIndex then
    if all_dots (String.substring (Z.to_nat (sepIndex + 1))
                                  (Z.to_nat (dotIndex - sepIndex - 1)) p)
    then EmptyString
    else String.substring (Z.to_nat dotIndex) (String.length p - Z.to_nat dotIndex) p
  else EmptyString.

(** [tempfile.NamedTemporaryFile(delete=False, suffix=sfx)] followed by
    [.name]: [tempfile._mkstemp_inner] tries up to [os.TMP_MAX] candidate
    names in the temporary directory, creating the first one that does not
    exist (opened with [O_EXCL]); the candidates are drawn here from a
    counter instead of a random sequence. *)
Definition TMP_MAX : positive := 238328.

Definition tmp_name (k : nat) (sfx : string) : string :=
  "/tmp/tmp" +:+ pretty (N.of_nat k) +:+ sfx.

Fixpoint mkstemp_loop (fuel : nat) (sfx : string) : M string :=
  match fuel with
  | O => py_raise (Exception "FileExistsError" "[Errno 17] No usable temporary file name found")
  | S fuel =>
      fun w =>
        let name := tmp_name (tmp_counter w) sfx in
        match fs w !! name with
        | Some _ => mkstemp_loop fuel sfx (set_counter (S (tmp_counter w)) (created_tmp w) w)
        | None =>
            (Ok name, set_fs (<[name := Raw []]> (fs w))
                             (set_counter (S (tmp_counter w)) (created_tmp w ++ [name]) w))
        end
  end.

Definition NamedTemporaryFile (sfx : string) : M string :=
  mkstemp_loop (Pos.to_nat TMP_MAX) sfx.

(** [subprocess.run(cmd, check=True, capture_output=True, text=True)]. *)
Definition subprocess_run_check (E : env) (cmd : list string) : M unit :=
  fun w => match exec E cmd (fs w) with
           | SpawnFailed e => (Raise e, w)
           | Completed rc out err after =>
               let w' := set_fs after w in
               if Z.eqb rc 0 then (Ok tt, w')
               else (Raise (CalledProcessError rc cmd out err), w')
           end.

(** [cv2.VideoCapture(p)]; [None] when [cap.isOpened()] is false. *)
Definition cv2_VideoCapture (E : env) (p : string) : M (option stream) :=
  gets (fun w => fs w !! p ≫= decode E).

(** [cv2.VideoWriter_fourcc(c1, c2, c3, c4)]. *)
Definition VideoWriter_fourcc (c1 c2 c3 c4 : Ascii.ascii) : Z :=
  let b c := Z.land (Z.of_nat (Ascii.nat_of_ascii c)) 255 in
  b c1 + Z.shiftl (b c2) 8 + Z.shiftl (b c3) 16 + Z.shiftl (b c4) 24.

(** [cv2.VideoWriter(p, fourcc, fps, (w, h))]; [None] when
    [out.isOpened()] is false.  Opening creates the container. *)
Definition cv2_VideoWriter (E : env) (p : string) (fcc : Z) (fps : Q) (size : Z * Z)
  : M (option container) :=
  fun w =>
    if writer_opens E p fcc fps size then
      let c := mkContainer fcc fps size.1 size.2 [] in
      (Ok (Some c), set_fs (<[p := Mp4 c]> (fs w)) w)
    else (Ok None, w).

(** [out.write(img)]: appends a frame to the container at [p]. *)
Definition writer_write (p : string) (c : container) (img : image) : M container :=
  fun w =>
    let c' := mkContainer (fourcc c) (c_fps c) (c_w c) (c_h c) (c_frames c ++ [img]) in
    (Ok c', set_fs (<[p := Mp4 c']> (fs w)) w).

(** [model(frame, imgsz=imgsz, conf=conf)]. *)
Definition model_call (E : env) (model : handle) (frame : image) (imgsz : Z) (conf : Q)
  : M (list result) :=
  match infer E model frame imgsz conf with
  | inl e => py_raise e
  | inr rs => mret rs
  end.

(** [results[0]]. *)
Definition first_result (l : list result) : M result :=
  match l with
  | r :: _ => mret r
  | [] => py_raise (Exception "IndexError" "list index out of range")
  end.

(* ------------------------------------------------------------------ *)
(** ** [process_video] *)

Definition IMG_SIZE : Z := 640.
(** [CONF_THRESHOLD = 0.5]. *)
Definition CONF_THRESHOLD : Q := 1 # 2.

(** The [while True] loop: one iteration per frame [cap.read()] returns,
    leaving the loop when it reports the end of the input. *)
Fixpoint detect_loop (E : env) (model : handle) (output_path : string)
    (out : container) (frames : list image) : M container :=
  match frames with
  | [] => mret out
  | frame :: rest =>
      results ← model_call E model frame IMG_SIZE CONF_THRESHOLD;
      r0 ← first_result results;
      let rendered_frame := plot E r0 in
      out' ← writer_write output_path out rendered_frame;
      detect_loop E model output_path out' rest
  end.

(** [process_video(input_path, output_path, model)]; the [release]
    calls have no effect on the state modelled here. *)
Definition process_video (E : env) (input_path output_path : string) (model : handle)
  : M unit :=
  cap ← cv2_VideoCapture E input_path;
  match cap with
  | None =>
      st_error ("Error: Could not open pre-processed video file at " +:+ input_path)
  | Some cap =>
      let width := s_w cap in
      let height := s_h cap in
      let fps := s_fps cap in
      let fcc := VideoWriter_fourcc "m" "p" "4" "v" in
      out ← cv2_VideoWriter E output_path fcc fps (width, height);
      match out with
      | None => st_error "Error: Could not open video writer."
      | Some out =>
          _ ← detect_loop E model output_path out (s_frames cap);
          mret tt
      end
  end.

(* ------------------------------------------------------------------ *)
(** ** [load_model] under [@st.cache_resource] *)

(** [YOLO(path)]: a fresh object, or the exception the constructor raises. *)
Definition YOLO (E : env) (p : string) : M handle :=
  fun w => match yolo_error E p (fs w) with
           | Some e => (Raise e, w)
           | None => (Ok (mkHandle p (yolo_calls w)),
                      set_cache (resource_cache w) (S (yolo_calls w)) w)
           end.

(** [@st.cache_resource]: a process-wide memo table keyed by the
    argument; a hit returns the stored object, a miss runs the function
    and stores its value when it returns (an exception is not stored). *)
Definition cache_resource (key : string) (f : M handle) : M handle :=
  fun w => match resource_cache w !! key with
           | Some h => (Ok h, w)
           | None =>
               match f w with
               | (Ok h, w') => (Ok h, set_cache (<[key := h]> (resource_cache w')) (yolo_calls w') w')
               | r => r
               end
           end.

Definition load_model (E : env) (model_path : string) : M handle :=
  cache_resource model_path (YOLO E model_path).

(* ------------------------------------------------------------------ *)
(** ** The FFmpeg command *)

Definition scale_filter : string :=
  "scale='if(gt(a,1),1280,-2)':'if(gt(a,1),-2,1280)'".

Definition ffmpeg_command (input_video_path downscaled_video_path : string) : list string :=
  ["ffmpeg"; "-y"; "-i"; input_video_path; "-vf"; scale_filter; downscaled_video_path].

(* ------------------------------------------------------------------ *)
(** ** [main] *)

Definition assign_input (p : string) : M unit :=
  modify (fun w => let l := locals w in
    set_locals (mkLocals (Some p) (downscaled_video_path l) (output_video_path l)) w).
Definition assign_downscaled (p : string) : M unit :=
  modify (fun w => let l := locals w in
    set_locals (mkLocals (input_video_path l) (Some p) (output_video_path l)) w).
Definition assign_output (p : string) : M unit :=
  modify (fun w => let l := locals w in
    set_locals (mkLocals (input_video_path l) (downscaled_video_path l) (Some p)) w).

(** [os.path.exists(p) and os.path.getsize(p) > 0]. *)
Definition output_nonempty (E : env) (p : string) : M bool :=
  found ← os_path_exists p;
  if (found : bool) then (sz ← os_path_getsize E p; mret (0 <? sz)%nat) else mret false.

(** The [try] block of an upload, cut at the stages of the pipeline; the
    statements are those of the source, in its order. *)

(** Uploaded: the bytes are saved to a temporary file that keeps the
    upload's extension, and the transcoding target is created. *)
Definition prepare_stage (E : env) (uploaded_video : upload) : M (string * string) :=
  input_video_path ← NamedTemporaryFile (splitext_ext (up_name uploaded_video));
  assign_input input_video_path;;
  write_file E input_video_path (Raw (up_data uploaded_video));;
  st_info "Standardizing video with FFmpeg...";;
  downscaled_video_path ← NamedTemporaryFile ".mp4";
  assign_downscaled downscaled_video_path;;
  mret (input_video_path, downscaled_video_path).

(** Ready, or the report that no video was produced. *)
Definition present_stage (E : env) (output_video_path : string) : M unit :=
  ok ← output_nonempty E output_video_path;
  if (ok : bool) then
    (video_bytes ← read_file output_video_path;
     st_video video_bytes;;
     st_download_button "Download Processed Video" video_bytes
                        "video_with_detections.mp4" "video/mp4")
  else st_error "Processing failed to produce a video file.".

(** Detecting. *)
Definition detect_stage (E : env) (model : handle) (downscaled_video_path : string) : M unit :=
  st_info "Processing the standardized video for object detection...";;
  output_video_path ← NamedTemporaryFile ".mp4";
  assign_output output_video_path;;
  process_video E downscaled_video_path output_video_path model;;
  present_stage E output_video_path.

(** Transcoding. *)
Definition transcode_stage (E : env) (model : handle)
    (input_video_path downscaled_video_path : string) : M unit :=
  subprocess_run_check E (ffmpeg_command input_video_path downscaled_video_path);;
  detect_stage E model downscaled_video_path.

Definition session_body (E : env) (model : handle) (uploaded_video : upload) : M unit :=
  paths ← prepare_stage E uploaded_video;
  transcode_stage E model paths.1 paths.2.

(** The [except] clauses, in order. *)
Definition session_handlers (e : exn) : option (M unit) :=
  match e with
  | CalledProcessError _ _ _ stderr =>
      Some (st_error "FFmpeg failed to process the video. This can happen with certain video formats.";;
            st_error ("FFmpeg Error Details: " +:+ stderr))
  | Exception _ _ => Some (st_error ("An unexpected error occurred: " +:+ py_str e))
  | BaseException _ _ => None
  end.

(** [if p and os.path.exists(p): os.remove(p)]. *)
Definition cleanup_one (p : option string) : M unit :=
  match p with
  | Some p =>
      if String.eqb p EmptyString then mret tt
      else (found ← os_path_exists p; if (found : bool) then os_remove p else mret tt)
  | None => mret tt
  end.

(** The [finally] block. *)
Definition cleanup : M unit :=
  p1 ← gets (fun w => input_video_path (locals w)); cleanup_one p1;;
  p2 ← gets (fun w => downscaled_video_path (locals w)); cleanup_one p2;;
  p3 ← gets (fun w => output_video_path (locals w)); cleanup_one p3.

(** The [if uploaded_video is not None:] branch. *)
Definition session (E : env) (model : handle) (uploaded_video : upload) : M unit :=
  modify (set_locals no_locals);;
  py_try (session_body E model uploaded_video) session_handlers cleanup.

Definition main (E : env) (uploaded : option upload) : M unit :=
  st_title "YOLOv11 Object Detection";;
  st_write "This app uses a pre-configured model to detect objects in an uploaded video.";;
  let model_path := "best.pt" in
  found ← os_path_exists model_path;
  if negb (found : bool) then
    st_error ("Error: The model file was not found at the path: " +:+ model_path);;
    st_info "Please make sure the 'best.pt' file is located in the correct directory."
  else
    loaded ← try_except_Exception
               (model ← load_model E model_path;
                st_success "Model loaded successfully!";;
                mret (Some model))
               (fun e => st_error ("An error occurred while loading the model: " +:+ py_str e);;
                         mret None);
    match loaded with
    | None => mret tt
    | Some model =>
        uploaded_video ← st_file_uploader "Upload a video to begin detection (MP4, MOV, AVI)"
                                          ["mp4"; "mov"; "avi"] uploaded;
        match uploaded_video with
        | None => mret tt
        | Some u => session E model u
        end
    end.

(* ------------------------------------------------------------------ *)
(** ** The scale filter of the FFmpeg command

    FFmpeg is an external tool; what follows models how its [scale] filter
    (libavfilter, [ff_scale_eval_dimensions]) reads the two expressions of
    [scale_filter]: [a] is the input aspect ratio [iw/ih] (a double in
    FFmpeg, an exact rational here), [gt(x,y)] is [1] or [0], [if(c,t,e)]
    is [t] when [c] is non-zero; a result [-n] with [n > 1] asks for the
    value that keeps the aspect ratio, rounded to a multiple of [n] with
    [av_rescale] (round to nearest, halves away from zero). *)
Inductive fexpr :=
| FNum (z : Z)
| FVarA
| FGt (x y : fexpr)
| FIf (c t e : fexpr).

Fixpoint render_fexpr (e : fexpr) : string :=
  match e with
  | FNum z => pretty z
  | FVarA => "a"
  | FGt x y => "gt(" +:+ render_fexpr x +:+ "," +:+ render_fexpr y +:+ ")"
  | FIf c t f => "if(" +:+ render_fexpr c +:+ "," +:+ render_fexpr t +:+ ","
                   +:+ render_fexpr f +:+ ")"
  end.

(** [scale='W':'H']. *)
Definition render_scale (we he : fexpr) : string :=
  "scale=" +:+ quote +:+ render_fexpr we +:+ quote +:+ ":"
    +:+ quote +:+ render_fexpr he +:+ quote.

Definition scale_w_expr : fexpr := FIf (FGt FVarA (FNum 1)) (FNum 1280) (FNum (-2)).
Definition scale_h_expr : fexpr := FIf (FGt FVarA (FNum 1)) (FNum (-2)) (FNum 1280).

Fixpoint feval (a : Q) (e : fexpr) : Q :=
  match e with
  | FNum z => inject_Z z
  | FVarA => a
  | FGt x y => if Qle_bool (feval a x) (feval a y) then 0 else 1
  | FIf c t f => if Qeq_bool (feval a c) 0 then feval a f else feval a t
  end.

(** The conversion of the evaluated double to [int]. *)
Definition Qtrunc (q : Q) : Z := Z.quot (Qnum q) (Zpos (Qden q)).

(** [av_rescale(a, b, c)] for [b, c > 0]. *)
Definition av_rescale (a b c : Z) : Z :=
  if a <? 0 then - ((- a * b + c / 2) / c) else (a * b + c / 2) / c.

Definition scale_eval (iw ih : Z) (we he : fexpr) : Z * Z :=
  let a := Qmake iw (Z.to_pos ih) in
  let w := Qtrunc (feval a we) in
  let h := Qtrunc (feval a he) in
  let factor_w := if w <? -1 then - w else 1 in
  let factor_h := if h <? -1 then - h else 1 in
  let '(w, h) := if (w <? 0) && (h <? 0) then (iw, ih) else (w, h) in
  let w := if w <? 0 then av_rescale h iw (ih * factor_w) * factor_w else w in
  let h := if h <? 0 then av_rescale w ih (iw * factor_h) * factor_h else h in
  (w, h).

(** The geometry FFmpeg gives the transcoded video for an input of
    [iw] x [ih] pixels. *)
Definition transcoded_dims (iw ih : Z) : Z * Z :=
  scale_eval iw ih scale_w_expr scale_h_expr.

(* ------------------------------------------------------------------ *)
(** ** A concrete environment, for evaluating the model on examples *)

Module Demo.
Definition frame0 : image := mkImage 1280 720 [7; 7; 7].

Definition clip : container := mkContainer 0 30 1280 720 [frame0; frame0; frame0].

(** FFmpeg turns a non-empty upload into [clip] at the output path and
    exits with status 1 on an empty one. *)
Definition ffmpeg (cmd : list string) (m : gmap string contents) : proc_outcome :=
  match cmd with
  | [_; _; _; i; _; _; o] =>
      match m !! i with
      | Some (Raw (_ :: _)) => Completed 0 EmptyString EmptyString (<[o := Mp4 clip]> m)
      | _ => Completed 1 EmptyString "Invalid data found when processing input" m
      end
  | _ => SpawnFailed (Exception "FileNotFoundError" "ffmpeg")
  end.

(** A detector that finds nothing and a renderer that marks the frame. *)
Definition env0 : env := mkEnv
  (fun c => match c with
            | Mp4 c => Some (mkStream (c_frames c) (c_w c) (c_h c) (c_fps c))
            | Raw _ => None
            end)
  (fun p _ _ _ => negb (String.eqb p "/nonexistent/out.mp4"))
  ffmpeg
  (fun _ img _ _ => inr [mkResult [] img])
  (fun r => mkImage (img_w (orig_img r)) (img_h (orig_img r)) (0 :: pixels (orig_img r)))
  (fun p m => match m !! p with
              | Some _ => None
              | None => Some (Exception "FileNotFoundError" p)
              end)
  (fun _ _ => None)
  (fun c => (48 + length (c_frames c))%nat).

(** The same detector, but it draws differently on each frame. *)
Definition env1 : env := mkEnv (decode env0) (writer_opens env0) (exec env0)
  (fun _ img _ _ => inr [mkResult [mkBox 0 (9 # 10) (0, 0, 10, 10)] img])
  (fun r => mkImage (img_w (orig_img r)) (img_h (orig_img r)) (1 :: pixels (orig_img r)))
  (yolo_error env0) (write_error env0) (container_size env0).

Definition world0 : world :=
  mkWorld (<[ "/tmp/clip.mp4" := Mp4 clip ]> {[ "best.pt" := Raw [Byte.x00] ]})
          [] 0 [] no_locals ∅ 0.

Definition world_no_model : world := mkWorld ∅ [] 0 [] no_locals ∅ 0.

Definition handle0 : handle := mkHandle "best.pt" 0.

(** [world0] once [best.pt] has been loaded. *)
Definition world_cached : world := set_cache {[ "best.pt" := handle0 ]} 1 world0.

Definition bad_upload_ : upload := mkUpload "notes.mov" [].

(** The state once [bad_upload] is saved and the FFmpeg target created. *)
Definition world_prepared : world :=
  snd (prepare_stage env0 bad_upload_ (set_locals no_locals world0)).

Definition good_upload : upload := mkUpload "clip.mp4" [Byte.x01; Byte.x02].

(** A disk that is full: every write raises. *)
Definition env_disk_full : env := mkEnv (decode env0) (writer_opens env0) (exec env0)
  (infer env0) (plot env0) (yolo_error env0)
  (fun _ _ => Some (Exception "OSError" "[Errno 28] No space left on device"))
  (container_size env0).

(** No [ffmpeg] executable on the path. *)
Definition env_no_ffmpeg : env := mkEnv (decode env0) (writer_opens env0)
  (fun _ _ => SpawnFailed (Exception "FileNotFoundError"
                             "[Errno 2] No such file or directory: 'ffmpeg'"))
  (infer env0) (plot env0) (yolo_error env0) (write_error env0) (container_size env0).

(** The user stops the server while the detector runs. *)
Definition env_interrupt : env := mkEnv (decode env0) (writer_opens env0) (exec env0)
  (fun _ _ _ _ => inl (BaseException "KeyboardInterrupt" EmptyString))
  (plot env0) (yolo_error env0) (write_error env0) (container_size env0).

(** A detector that runs out of memory on frames whose first pixel is 9. *)
Definition frame1 : image := mkImage 1280 720 [9; 9; 9].

Definition clip2 : container := mkContainer 0 30 1280 720 [frame0; frame1; frame0].

Definition env_oom : env := mkEnv (decode env0) (writer_opens env0) (exec env0)
  (fun h img z q => if Z.eqb (hd 0 (pixels img)) 9
                    then inl (Exception "RuntimeError" "CUDA out of memory")
                    else infer env0 h img z q)
  (plot env0) (yolo_error env0) (write_error env0) (container_size env0).

Definition world_clip2 : world := set_fs (<[ "/tmp/clip2.mp4" := Mp4 clip2 ]> (fs world0)) world0.

(** A model file YOLO refuses. *)
Definition env_bad_model : env := mkEnv (decode env0) (writer_opens env0) (exec env0)
  (infer env0) (plot env0)
  (fun _ _ => Some (Exception "RuntimeError" "Invalid model file"))
  (write_error env0) (container_size env0).
Definition bad_upload : upload := bad_upload_.
End Demo.

(* ================================================================== *)
(** * Properties *)

(* ------------------------------------------------------------------ *)
(** ** Transcoding geometry *)

Lemma scale_filter_rendered : render_scale scale_w_expr scale_h_expr = scale_filter.
Proof. vm_compute. reflexivity. Qed.

Lemma feval_aspect_gt (iw ih : Z) :
  0 < ih ->
  Qle_bool (Qmake iw (Z.to_pos ih)) (inject_Z 1) = negb (ih <? iw).
Proof.
  intros Hh. unfold Qle_bool. cbn [Qnum Qden inject_Z].
  rewrite Z2Pos.id by lia.
  destruct (Z.leb_spec (iw * 1) (1 * ih)), (Z.ltb_spec ih iw); auto; lia.
Qed.

Lemma Qtrunc_inject (z : Z) : Qtrunc (inject_Z z) = z.
Proof. unfold Qtrunc, inject_Z. cbn [Qnum Qden]. apply Z.quot_1_r. Qed.

Lemma feval_scale_w (iw ih : Z) :
  0 < ih ->
  feval (Qmake iw (Z.to_pos ih)) scale_w_expr = inject_Z (if ih <? iw then 1280 else -2).
Proof.
  intros Hh. unfold scale_w_expr. cbn [feval]. rewrite (feval_aspect_gt iw ih Hh).
  destruct (ih <? iw); reflexivity.
Qed.

Lemma feval_scale_h (iw ih : Z) :
  0 < ih ->
  feval (Qmake iw (Z.to_pos ih)) scale_h_expr = inject_Z (if ih <? iw then -2 else 1280).
Proof.
  intros Hh. unfold scale_h_expr. cbn [feval]. rewrite (feval_aspect_gt iw ih Hh).
  destruct (ih <? iw); reflexivity.
Qed.

Lemma transcoded_dims_landscape (iw ih : Z) :
  0 < iw -> 0 < ih -> ih < iw ->
  transcoded_dims iw ih = (1280, 2 * ((1280 * ih + iw) / (2 * iw))).
Proof.
  intros Hw Hh Hlt. unfold transcoded_dims, scale_eval.
  rewrite feval_scale_w, feval_scale_h, !Qtrunc_inject by lia.
  replace (ih <? iw) with true by (symmetry; apply Z.ltb_lt; lia).
  unfold av_rescale.
  cbn -[Z.mul Z.div Z.add]. f_equal.
  replace (- (-2)) with 2 by reflexivity. rewrite Z.div_mul by lia.
  rewrite (Z.mul_comm iw 2). lia.
Qed.

Lemma transcoded_dims_portrait (iw ih : Z) :
  0 < iw -> 0 < ih -> iw <= ih ->
  transcoded_dims iw ih = (2 * ((1280 * iw + ih) / (2 * ih)), 1280).
Proof.
  intros Hw Hh Hle. unfold transcoded_dims, scale_eval.
  rewrite feval_scale_w, feval_scale_h, !Qtrunc_inject by lia.
  replace (ih <? iw) with false by (symmetry; apply Z.ltb_ge; lia).
  unfold av_rescale.
  cbn -[Z.mul Z.div Z.add]. f_equal.
  replace (- (-2)) with 2 by reflexivity. rewrite Z.div_mul by lia.
  rewrite (Z.mul_comm ih 2). lia.
Qed.

(** Rounding [1280 * s / l] to the nearest even number, for [s <= l]:
    the result is even, at most [1280], and within one of the exact
    proportional value. *)
Lemma even_rounding_bounds (s l : Z) :
  0 < s -> s <= l ->
  let v := 2 * ((1280 * s + l) / (2 * l)) in
  Z.even v = true /\ 0 <= v <= 1280 /\ Z.abs (v * l - 1280 * s) <= l.
Proof.
  intros Hs Hle v. subst v.
  pose proof (Z.div_mod (1280 * s + l) (2 * l)) as Hdm.
  pose proof (Z.mod_pos_bound (1280 * s + l) (2 * l)) as Hb.
  set (q := (1280 * s + l) / (2 * l)) in *.
  set (r := (1280 * s + l) mod (2 * l)) in *.
  split; [rewrite Z.even_mul; reflexivity |].
  assert (0 <= q) by nia. assert (q <= 640) by nia.
  split; [lia |]. apply Z.abs_le. nia.
Qed.

(** C3: the fixed argument template of the transcoder carries the scale
    filter [scale_w_expr]/[scale_h_expr]; for an input of [iw] x [ih]
    pixels, a landscape input ([iw/ih > 1]) gets width 1280 and the height
    [1280 * ih / iw] rounded to the nearest even number, any other input
    gets height 1280 and the width [1280 * iw / ih] rounded to the nearest
    even number; both dimensions are even and the longer one is 1280. *)
Theorem transcode_scale_dims (iw ih : Z) (input_path output_path : string) :
  0 < iw -> 0 < ih ->
  ffmpeg_command input_path output_path !! 5%nat = Some (render_scale scale_w_expr scale_h_expr) /\
  let '(w, h) := transcoded_dims iw ih in
  (ih < iw -> w = 1280 /\ h = 2 * ((1280 * ih + iw) / (2 * iw))
              /\ Z.abs (h * iw - 1280 * ih) <= iw) /\
  (iw <= ih -> h = 1280 /\ w = 2 * ((1280 * iw + ih) / (2 * ih))
               /\ Z.abs (w * ih - 1280 * iw) <= ih) /\
  Z.even w = true /\ Z.even h = true /\ Z.max w h = 1280.
Proof.
  intros Hw Hh. split; [rewrite scale_filter_rendered; reflexivity |].
  destruct (Z.ltb_spec ih iw) as [Hlt | Hle].
  - rewrite transcoded_dims_landscape by lia.
    destruct (even_rounding_bounds ih iw) as (Hev & Hb & Hp); [lia | lia |].
    repeat split; try lia; auto.
  - rewrite transcoded_dims_portrait by lia.
    destruct (even_rounding_bounds iw ih) as (Hev & Hb & Hp); [lia | lia |].
    repeat split; try lia; auto.
Qed.

(** The scenarios of the specification: 1920x1080 gives 1280x720 and
    1080x1920 gives 720x1280. *)
Lemma transcode_scale_dims_witness :
  (0 < 1920 /\ 0 < 1080) /\ transcoded_dims 1920 1080 = (1280, 720) /\
  transcoded_dims 1080 1920 = (720, 1280) /\
  ffmpeg_command "/tmp/tmp0.mp4" "/tmp/tmp1.mp4" !! 5%nat
    = Some (render_scale scale_w_expr scale_h_expr).
Proof.
  split; [lia |]. split; [reflexivity |]. split; [reflexivity |].
  apply (proj1 (transcode_scale_dims 1920 1080 "/tmp/tmp0.mp4" "/tmp/tmp1.mp4" ltac:(lia) ltac:(lia))).
Defined.

(* ------------------------------------------------------------------ *)
(** ** Reasoning about the monad *)

Lemma bind_run {A B} (m : M A) (k : A -> M B) (w : world) :
  (m ≫= k) w = match m w with
               | (Ok a, w') => k a w'
               | (Raise e, w') => (Raise e, w')
               end.
Proof. reflexivity. Qed.

Lemma ret_run {A} (a : A) (w : world) : (mret a : M A) w = (Ok a, w).
Proof. reflexivity. Qed.

Lemma set_fs_set_fs (m1 m2 : gmap string contents) (w : world) :
  set_fs m2 (set_fs m1 w) = set_fs m2 w.
Proof. destruct w; reflexivity. Qed.

Lemma set_fs_same (w : world) : set_fs (fs w) w = w.
Proof. destruct w; reflexivity. Qed.

Lemma fs_set_fs (m : gmap string contents) (w : world) : fs (set_fs m w) = m.
Proof. reflexivity. Qed.

(* ------------------------------------------------------------------ *)
(** ** The detection loop *)

(** The container after further frames are appended. *)
Definition append_frames (c : container) (l : list image) : container :=
  mkContainer (fourcc c) (c_fps c) (c_w c) (c_h c) (c_frames c ++ l).

Lemma append_frames_nil (c : container) : append_frames c [] = c.
Proof. destruct c; unfold append_frames; cbn; rewrite app_nil_r; reflexivity. Qed.

Lemma append_frames_app (c : container) (l1 l2 : list image) :
  append_frames (append_frames c l1) l2 = append_frames c (l1 ++ l2).
Proof. unfold append_frames; cbn; rewrite app_assoc; reflexivity. Qed.

Section Loop.
Variable E : env.
Variable model : handle.
Variable output_path : string.

(** Every frame of [frames] yields at least one result at the resolution
    and threshold of the source. *)
Definition inference_succeeds (frames : list image) : Prop :=
  forall f, f ∈ frames -> exists r rs, infer E model f 640 (1 # 2) = inr (r :: rs).

(** [outs] holds, in order, exactly one annotated frame per frame. *)
Definition annotated_in_order (frames outs : list image) : Prop :=
  length outs = length frames /\
  forall i f, frames !! i = Some f ->
    exists r rs, infer E model f 640 (1 # 2) = inr (r :: rs) /\ outs !! i = Some (plot E r).

Lemma detect_loop_ok (frames : list image) :
  forall (out : container) (w : world),
    fs w !! output_path = Some (Mp4 out) ->
    inference_succeeds frames ->
    exists outs,
      detect_loop E model output_path out frames w
        = (Ok (append_frames out outs),
           set_fs (<[output_path := Mp4 (append_frames out outs)]> (fs w)) w)
      /\ annotated_in_order frames outs.
Proof.
  induction frames as [| f rest IH]; intros out w Hout Hinf.
  - exists []. split.
    + cbn [detect_loop]. rewrite append_frames_nil, insert_id by exact Hout.
      rewrite set_fs_same. reflexivity.
    + split; [reflexivity |]. intros i f Hf. rewrite lookup_nil in Hf. discriminate.
  - destruct (Hinf f ltac:(left)) as (r & rs & Hr).
    set (out1 := append_frames out [plot E r]).
    set (w1 := set_fs (<[output_path := Mp4 out1]> (fs w)) w).
    destruct (IH out1 w1) as (outs & Hrun & Hlen & Hin).
    { unfold w1. rewrite fs_set_fs. apply lookup_insert_eq. }
    { intros g Hg. apply Hinf. right. exact Hg. }
    exists (plot E r :: outs). split.
    + cbn [detect_loop]. rewrite bind_run.
      unfold model_call, IMG_SIZE, CONF_THRESHOLD. rewrite Hr. cbn [mret M_ret m_ret].
      rewrite bind_run. cbn [first_result mret M_ret m_ret].
      rewrite bind_run. unfold writer_write at 1.
      fold (append_frames out [plot E r]). fold out1. fold w1.
      rewrite Hrun. unfold out1, w1. rewrite append_frames_app, set_fs_set_fs.
      rewrite fs_set_fs, insert_insert_eq. reflexivity.
    + split; [cbn; lia |].
      intros [| i] g Hg.
      * cbn in Hg. injection Hg as <-. exists r, rs. split; [exact Hr | reflexivity].
      * cbn in Hg. destruct (Hin i g Hg) as (r' & rs' & Hr' & Hi).
        exists r', rs'. split; [exact Hr' | exact Hi].
Qed.
End Loop.

(* ------------------------------------------------------------------ *)
(** ** [process_video] *)

Definition mp4v : Z := VideoWriter_fourcc "m" "p" "4" "v".

Lemma process_video_capture_fails (E : env) (p q : string) (model : handle) (w : world) :
  fs w !! p ≫= decode E = None ->
  process_video E p q model w
    = (Ok tt, set_ui (ui w ++ [Error ("Error: Could not open pre-processed video file at " +:+ p)]) w).
Proof.
  intros Hcap. unfold process_video. rewrite bind_run. unfold cv2_VideoCapture, gets.
  rewrite Hcap. reflexivity.
Qed.

Lemma process_video_writer_fails (E : env) (p q : string) (model : handle) (w : world) (v : stream) :
  fs w !! p ≫= decode E = Some v ->
  writer_opens E q mp4v (s_fps v) (s_w v, s_h v) = false ->
  process_video E p q model w
    = (Ok tt, set_ui (ui w ++ [Error "Error: Could not open video writer."]) w).
Proof.
  intros Hcap Hwr. unfold process_video. rewrite bind_run. unfold cv2_VideoCapture, gets.
  rewrite Hcap. cbv beta iota. rewrite bind_run. unfold cv2_VideoWriter.
  fold mp4v. rewrite Hwr. reflexivity.
Qed.

(** C1 (as amended): when the capture cannot be opened, [process_video]
    shows "Error: Could not open pre-processed video file at <path>" and
    returns normally; when it opens but the writer cannot be opened, it
    shows "Error: Could not open video writer." and returns normally.  In
    both cases no exception is raised and only the message is added: the
    file system is untouched. *)
Theorem process_video_open_failures (E : env) (p q : string) (model : handle) (w : world) :
  (fs w !! p ≫= decode E = None ->
   process_video E p q model w
     = (Ok tt, set_ui (ui w ++ [Error ("Error: Could not open pre-processed video file at " +:+ p)]) w)) /\
  (forall v, fs w !! p ≫= decode E = Some v ->
   writer_opens E q mp4v (s_fps v) (s_w v, s_h v) = false ->
   process_video E p q model w
     = (Ok tt, set_ui (ui w ++ [Error "Error: Could not open video writer."]) w)).
Proof.
  split.
  - apply process_video_capture_fails.
  - intros v. apply process_video_writer_fails.
Qed.

Lemma process_video_open_failures_witness :
  process_video Demo.env0 "/tmp/missing.mp4" "/tmp/out.mp4" Demo.handle0 Demo.world0
    = (Ok tt, set_ui [Error "Error: Could not open pre-processed video file at /tmp/missing.mp4"] Demo.world0) /\
  process_video Demo.env0 "/tmp/clip.mp4" "/nonexistent/out.mp4" Demo.handle0 Demo.world0
    = (Ok tt, set_ui [Error "Error: Could not open video writer."] Demo.world0).
Proof.
  split.
  - apply (proj1 (process_video_open_failures Demo.env0 "/tmp/missing.mp4" "/tmp/out.mp4"
                    Demo.handle0 Demo.world0)).
    vm_compute. reflexivity.
  - apply (proj2 (process_video_open_failures Demo.env0 "/tmp/clip.mp4" "/nonexistent/out.mp4"
                    Demo.handle0 Demo.world0) (mkStream (c_frames Demo.clip) 1280 720 30)).
    + vm_compute. reflexivity.
    + vm_compute. reflexivity.
Defined.

(** C1 as stated fails: with a capture that cannot be opened,
    [process_video] raises nothing (its outcome is [Ok tt]). *)
Lemma process_video_open_failure_no_exception :
  fs Demo.world0 !! "/tmp/missing.mp4" = None /\
  fst (process_video Demo.env0 "/tmp/missing.mp4" "/tmp/out.mp4" Demo.handle0 Demo.world0) = Ok tt /\
  fst (process_video Demo.env0 "/tmp/clip.mp4" "/nonexistent/out.mp4" Demo.handle0 Demo.world0) = Ok tt.
Proof. vm_compute. repeat split. Qed.

(** C4: once the capture and the writer are open, [process_video] writes
    an ["mp4v"] container with the geometry and rate of the input whose
    frames are, in order, exactly one annotated frame per input frame, each
    the rendering of the first result of the model run at [imgsz=640] and
    [conf=0.5]; it returns at the end of the input and changes nothing
    else. *)
Theorem process_video_frames (E : env) (input_path output_path : string) (model : handle)
    (w : world) (v : stream) :
  fs w !! input_path ≫= decode E = Some v ->
  writer_opens E output_path mp4v (s_fps v) (s_w v, s_h v) = true ->
  inference_succeeds E model (s_frames v) ->
  exists outs,
    process_video E input_path output_path model w
      = (Ok tt, set_fs (<[output_path := Mp4 (mkContainer mp4v (s_fps v) (s_w v) (s_h v) outs)]>
                        (fs w)) w)
    /\ annotated_in_order E model (s_frames v) outs.
Proof.
  intros Hcap Hwr Hinf. unfold process_video. rewrite bind_run. unfold cv2_VideoCapture, gets.
  rewrite Hcap. cbv beta iota. rewrite bind_run. unfold cv2_VideoWriter.
  fold mp4v. rewrite Hwr.
  set (c0 := mkContainer mp4v (s_fps v) (s_w v, s_h v).1 (s_w v, s_h v).2 []).
  destruct (detect_loop_ok E model output_path (s_frames v) c0
              (set_fs (<[output_path := Mp4 c0]> (fs w)) w)) as (outs & Hrun & Hord).
  { rewrite fs_set_fs. apply lookup_insert_eq. }
  { exact Hinf. }
  exists outs. split; [| exact Hord].
  rewrite bind_run, Hrun. rewrite ret_run, set_fs_set_fs, fs_set_fs, insert_insert_eq.
  reflexivity.
Qed.

Lemma process_video_frames_witness :
  (fs Demo.world0 !! "/tmp/clip.mp4" ≫= decode Demo.env0
     = Some (mkStream (c_frames Demo.clip) 1280 720 30) /\
   writer_opens Demo.env0 "/tmp/out.mp4" mp4v 30 (1280, 720) = true /\
   inference_succeeds Demo.env0 Demo.handle0 (c_frames Demo.clip)) /\
  exists outs,
    process_video Demo.env0 "/tmp/clip.mp4" "/tmp/out.mp4" Demo.handle0 Demo.world0
      = (Ok tt, set_fs (<[ "/tmp/out.mp4" := Mp4 (mkContainer mp4v 30 1280 720 outs)]>
                        (fs Demo.world0)) Demo.world0)
    /\ annotated_in_order Demo.env0 Demo.handle0 (c_frames Demo.clip) outs.
Proof.
  assert (Hinf : inference_succeeds Demo.env0 Demo.handle0 (c_frames Demo.clip)).
  { intros f _. eexists _, []. reflexivity. }
  split; [split; [vm_compute; reflexivity | split; [vm_compute; reflexivity | exact Hinf]] |].
  apply (process_video_frames Demo.env0 "/tmp/clip.mp4" "/tmp/out.mp4" Demo.handle0 Demo.world0
           (mkStream (c_frames Demo.clip) 1280 720 30)).
  - vm_compute. reflexivity.
  - vm_compute. reflexivity.
  - exact Hinf.
Defined.

(* ------------------------------------------------------------------ *)
(** ** Triples over the monad

    [triple P m Q R]: from a state satisfying [P], [m] either returns [a]
    in a state satisfying [Q a] or raises in a state satisfying [R]. *)

Definition triple {A} (P : world -> Prop) (m : M A) (Q : A -> world -> Prop)
    (R : world -> Prop) : Prop :=
  forall w, P w -> match m w with
                   | (Ok a, w') => Q a w'
                   | (Raise _, w') => R w'
                   end.

Lemma triple_bind {A B} (P : world -> Prop) (m : M A) (k : A -> M B)
    (Q : A -> world -> Prop) (Q' : B -> world -> Prop) (R : world -> Prop) :
  triple P m Q R -> (forall a, triple (Q a) (k a) Q' R) -> triple P (m ≫= k) Q' R.
Proof.
  intros Hm Hk w Hw. rewrite bind_run. specialize (Hm w Hw).
  destruct (m w) as [[a | e] w']; [apply Hk; exact Hm | exact Hm].
Qed.

Lemma triple_ret {A} (P : world -> Prop) (a : A) (Q : A -> world -> Prop) (R : world -> Prop) :
  (forall w, P w -> Q a w) -> triple P (mret a) Q R.
Proof. intros H w Hw. exact (H w Hw). Qed.

Lemma triple_weaken {A} (P P' : world -> Prop) (m : M A) (Q : A -> world -> Prop)
    (R : world -> Prop) :
  (forall w, P' w -> P w) -> triple P m Q R -> triple P' m Q R.
Proof. intros HP H w Hw. exact (H w (HP w Hw)). Qed.

(** The part of the state that the cleanup argument follows. *)
Definition neutral {A} (m : M A) : Prop :=
  forall w, created_tmp (snd (m w)) = created_tmp w /\ locals (snd (m w)) = locals w.

Lemma neutral_bind {A B} (m : M A) (k : A -> M B) :
  neutral m -> (forall a, neutral (k a)) -> neutral (m ≫= k).
Proof.
  intros Hm Hk w. rewrite bind_run. specialize (Hm w).
  destruct (m w) as [[a | e] w'] eqn:Hmw; cbn in Hm |- *.
  - destruct (Hk a w') as [H1 H2]. destruct Hm as [H3 H4]. split; congruence.
  - exact Hm.
Qed.

Lemma neutral_ret {A} (a : A) : neutral (mret a : M A).
Proof. intros w. split; reflexivity. Qed.

Lemma neutral_raise {A} (e : exn) : neutral (py_raise e : M A).
Proof. intros w. split; reflexivity. Qed.

Lemma triple_neutral {A} (m : M A) (I : list string -> frame_locals -> Prop) :
  neutral m ->
  triple (fun w => I (created_tmp w) (locals w)) m (fun _ w => I (created_tmp w) (locals w))
         (fun w => I (created_tmp w) (locals w)).
Proof.
  intros Hn w Hw. destruct (Hn w) as [H1 H2].
  destruct (m w) as [[a | e] w']; cbn in H1, H2; rewrite H1, H2; exact Hw.
Qed.

Create HintDb neutral.

Lemma neutral_st_event (e : ui_event) : neutral (st_event e).
Proof. intros w. split; reflexivity. Qed.

Lemma neutral_os_path_exists (p : string) : neutral (os_path_exists p).
Proof. intros w. split; reflexivity. Qed.

Lemma neutral_os_path_getsize (E : env) (p : string) : neutral (os_path_getsize E p).
Proof. intros w. unfold os_path_getsize. destruct (fs w !! p) as [[] |]; split; reflexivity. Qed.

Lemma neutral_read_file (p : string) : neutral (read_file p).
Proof. intros w. unfold read_file. destruct (fs w !! p); split; reflexivity. Qed.

Lemma neutral_os_remove (p : string) : neutral (os_remove p).
Proof. intros w. unfold os_remove. destruct (fs w !! p); split; reflexivity. Qed.

Lemma neutral_write_file (E : env) (p : string) (c : contents) : neutral (write_file E p c).
Proof. intros w. unfold write_file. destruct (write_error E p c); split; reflexivity. Qed.

Lemma neutral_subprocess (E : env) (cmd : list string) : neutral (subprocess_run_check E cmd).
Proof.
  intros w. unfold subprocess_run_check.
  destruct (exec E cmd (fs w)) as [e | rc o er after]; [split; reflexivity |].
  destruct (Z.eqb rc 0); split; reflexivity.
Qed.

Lemma neutral_gets {A} (f : world -> A) : neutral (gets f).
Proof. intros w. split; reflexivity. Qed.

Lemma neutral_capture (E : env) (p : string) : neutral (cv2_VideoCapture E p).
Proof. apply neutral_gets. Qed.

Lemma neutral_writer (E : env) (p : string) (fc : Z) (fps : Q) (size : Z * Z) :
  neutral (cv2_VideoWriter E p fc fps size).
Proof. intros w. unfold cv2_VideoWriter. destruct (writer_opens E p fc fps size); split; reflexivity. Qed.

Lemma neutral_writer_write (p : string) (c : container) (img : image) :
  neutral (writer_write p c img).
Proof. intros w. split; reflexivity. Qed.

Lemma neutral_model_call (E : env) (h : handle) (f : image) (z : Z) (q : Q) :
  neutral (model_call E h f z q).
Proof. unfold model_call. destruct (infer E h f z q); [apply neutral_raise | apply neutral_ret]. Qed.

Lemma neutral_first_result (l : list result) : neutral (first_result l).
Proof. destruct l; [apply neutral_raise | apply neutral_ret]. Qed.

#[local] Hint Resolve neutral_bind neutral_ret neutral_raise neutral_st_event
  neutral_os_path_exists neutral_os_path_getsize neutral_read_file neutral_os_remove
  neutral_write_file neutral_subprocess neutral_gets neutral_capture neutral_writer
  neutral_writer_write neutral_model_call neutral_first_result : neutral.

(** Branches of a [match] or [if] are split before applying the hints. *)
Ltac neutral_auto :=
  repeat first
    [ progress (intros; cbv beta)
    | apply neutral_bind
    | match goal with
      | |- neutral (match ?x with _ => _ end) => destruct x
      end
    | solve [eauto with neutral] ].

Lemma neutral_detect_loop (E : env) (h : handle) (p : string) (frames : list image) :
  forall out, neutral (detect_loop E h p out frames).
Proof.
  induction frames as [| f rest IH]; intros out; cbn [detect_loop].
  - apply neutral_ret.
  - neutral_auto.
Qed.

#[local] Hint Resolve neutral_detect_loop : neutral.

Lemma neutral_process_video (E : env) (p q : string) (h : handle) :
  neutral (process_video E p q h).
Proof. unfold process_video, st_error. neutral_auto. Qed.

Lemma neutral_output_nonempty (E : env) (p : string) : neutral (output_nonempty E p).
Proof. unfold output_nonempty. neutral_auto. Qed.

Lemma neutral_present_stage (E : env) (p : string) : neutral (present_stage E p).
Proof.
  unfold present_stage, st_video, st_download_button, st_error. apply neutral_bind.
  - apply neutral_output_nonempty.
  - intros []; neutral_auto.
Qed.

(* ------------------------------------------------------------------ *)
(** ** Temporary files *)

Lemma tmp_name_nonempty (k : nat) (sfx : string) : tmp_name k sfx <> EmptyString.
Proof. unfold tmp_name. cbn. discriminate. Qed.

(** [NamedTemporaryFile] creates one new empty file, records it, and
    touches nothing else; when it gives up it only advanced the counter. *)
Lemma mkstemp_loop_spec (fuel : nat) (sfx : string) :
  forall w,
    match mkstemp_loop fuel sfx w with
    | (Ok p, w') =>
        p <> EmptyString /\ fs w !! p = None /\
        exists n, w' = set_fs (<[p := Raw []]> (fs w)) (set_counter n (created_tmp w ++ [p]) w)
    | (Raise _, w') => exists n, w' = set_counter n (created_tmp w) w
    end.
Proof.
  induction fuel as [| fuel IH]; intros w; cbn [mkstemp_loop].
  - exists (tmp_counter w). destruct w; reflexivity.
  - destruct (fs w !! tmp_name (tmp_counter w) sfx) eqn:Hex.
    + specialize (IH (set_counter (S (tmp_counter w)) (created_tmp w) w)).
      destruct (mkstemp_loop fuel sfx _) as [[p | e] w'].
      * destruct IH as (Hne & Hfresh & n & ->). split; [exact Hne |]. split; [exact Hfresh |].
        exists n. destruct w; reflexivity.
      * destruct IH as (n & ->). exists n. destruct w; reflexivity.
    + split; [apply tmp_name_nonempty |]. split; [exact Hex |].
      exists (S (tmp_counter w)). reflexivity.
Qed.

Lemma NamedTemporaryFile_spec (sfx : string) (w : world) :
  match NamedTemporaryFile sfx w with
  | (Ok p, w') =>
      p <> EmptyString /\ fs w !! p = None /\
      exists n, w' = set_fs (<[p := Raw []]> (fs w)) (set_counter n (created_tmp w ++ [p]) w)
  | (Raise _, w') => exists n, w' = set_counter n (created_tmp w) w
  end.
Proof. apply mkstemp_loop_spec. Qed.

Definition opt_list {A} (o : option A) : list A :=
  match o with Some a => [a] | None => [] end.

(** The paths held by the three local variables, in assignment order. *)
Definition locals_list (l : frame_locals) : list string :=
  opt_list (input_video_path l) ++ opt_list (downscaled_video_path l) ++ opt_list (output_video_path l).

(** A predicate on the recorded temporary files and the local variables. *)
Definition tv (I : list string -> frame_locals -> Prop) (w : world) : Prop :=
  I (created_tmp w) (locals w).

(** Since the session started with [C0] recorded, the files it created
    are exactly those its local variables name, and none is empty. *)
Definition tracked (C0 : list string) (c : list string) (l : frame_locals) : Prop :=
  c = C0 ++ locals_list l /\ Forall (fun p => p <> EmptyString) (locals_list l).

Lemma triple_neutral_seq {A B} (m : M A) (k : A -> M B)
    (I R : list string -> frame_locals -> Prop) (Q : B -> world -> Prop) :
  neutral m -> (forall c l, I c l -> R c l) ->
  (forall a, triple (tv I) (k a) Q (tv R)) -> triple (tv I) (m ≫= k) Q (tv R).
Proof.
  intros Hn HIR Hk. apply triple_bind with (Q := fun _ => tv I).
  - intros w Hw. destruct (Hn w) as [H1 H2]. unfold tv in *.
    destruct (m w) as [[a | e] w']; cbn in H1, H2; rewrite H1, H2; [exact Hw | apply HIR, Hw].
  - exact Hk.
Qed.

Lemma triple_neutral_last {A} (m : M A) (I R : list string -> frame_locals -> Prop) :
  neutral m -> (forall c l, I c l -> R c l) ->
  triple (tv I) m (fun _ => tv R) (tv R).
Proof.
  intros Hn HIR w Hw. destruct (Hn w) as [H1 H2]. unfold tv in *.
  destruct (m w) as [[a | e] w']; cbn in H1, H2; rewrite H1, H2; apply HIR, Hw.
Qed.

Lemma triple_NTF (sfx : string) (I R : list string -> frame_locals -> Prop) :
  (forall c l, I c l -> R c l) ->
  triple (tv I) (NamedTemporaryFile sfx)
         (fun p w => exists c, I c (locals w) /\ created_tmp w = c ++ [p] /\ p <> EmptyString)
         (tv R).
Proof.
  intros HIR w Hw. pose proof (NamedTemporaryFile_spec sfx w) as H.
  destruct (NamedTemporaryFile sfx w) as [[p | e] w'].
  - destruct H as (Hne & _ & n & ->). exists (created_tmp w). split; [exact Hw |].
    split; [reflexivity | exact Hne].
  - destruct H as (n & ->). apply HIR. exact Hw.
Qed.

Lemma prepare_tracked (C0 : list string) (E : env) (u : upload) :
  triple (tv (fun c l => c = C0 /\ l = no_locals)) (prepare_stage E u)
         (fun ps => tv (fun c l => tracked C0 c l /\ l = mkLocals (Some ps.1) (Some ps.2) None))
         (tv (tracked C0)).
Proof.
  unfold prepare_stage.
  apply triple_bind with
    (Q := fun p w => exists c, (c = C0 /\ locals w = no_locals) /\ created_tmp w = c ++ [p]
                               /\ p <> EmptyString).
  { apply triple_NTF. intros c l [-> ->]. split; [rewrite app_nil_r; reflexivity | constructor]. }
  intros p1.
  apply triple_bind with
    (Q := fun _ => tv (fun c l => c = C0 ++ [p1] /\ l = mkLocals (Some p1) None None
                                  /\ p1 <> EmptyString)).
  { intros w (c & [-> Hl] & Hc & Hne). unfold tv; cbn. rewrite Hl. auto. }
  intros [].
  apply triple_neutral_seq; [apply neutral_write_file | |].
  { intros c l (-> & -> & Hne). split; [reflexivity | repeat constructor; exact Hne]. }
  intros [].
  apply triple_neutral_seq; [apply neutral_st_event | |].
  { intros c l (-> & -> & Hne). split; [reflexivity | repeat constructor; exact Hne]. }
  intros [].
  apply triple_bind with
    (Q := fun p w => exists c, (c = C0 ++ [p1] /\ locals w = mkLocals (Some p1) None None
                                /\ p1 <> EmptyString) /\ created_tmp w = c ++ [p]
                               /\ p <> EmptyString).
  { apply triple_NTF. intros c l (-> & -> & Hne). split; [reflexivity | repeat constructor; exact Hne]. }
  intros p2.
  apply triple_bind with
    (Q := fun _ => tv (fun c l => c = C0 ++ [p1; p2] /\ l = mkLocals (Some p1) (Some p2) None
                                  /\ p1 <> EmptyString /\ p2 <> EmptyString)).
  { intros w (c & (-> & Hl & Hne1) & Hc & Hne2). unfold tv; cbn. rewrite Hl. cbn.
    rewrite Hc, <- app_assoc. auto. }
  intros [].
  apply triple_ret. intros w (Hc & Hl & Hne1 & Hne2). cbn. split; [| exact Hl].
  rewrite Hl. split; [exact Hc | repeat constructor; assumption].
Qed.

Lemma transcode_tracked (C0 : list string) (E : env) (model : handle) (p1 p2 : string) :
  triple (tv (fun c l => tracked C0 c l /\ l = mkLocals (Some p1) (Some p2) None))
         (transcode_stage E model p1 p2) (fun _ => tv (tracked C0)) (tv (tracked C0)).
Proof.
  unfold transcode_stage, detect_stage.
  apply triple_neutral_seq; [apply neutral_subprocess | intros c l []; assumption |]. intros [].
  apply triple_neutral_seq; [apply neutral_st_event | intros c l []; assumption |]. intros [].
  apply triple_bind with
    (Q := fun p w => exists c, (tracked C0 c (locals w) /\ locals w = mkLocals (Some p1) (Some p2) None)
                               /\ created_tmp w = c ++ [p] /\ p <> EmptyString).
  { apply triple_NTF. intros c l []; assumption. }
  intros p3.
  apply triple_bind with (Q := fun _ => tv (tracked C0)).
  { intros w (c & ((Hc & Hne) & Hl) & Hc' & Hne3). unfold tv, tracked in *; cbn.
    rewrite Hl in Hc, Hne |- *. cbn in *. rewrite Hc', Hc, <- !app_assoc. split; [reflexivity |].
    inversion Hne as [| ? ? H1 Hne']. inversion Hne' as [| ? ? H2 _].
    repeat constructor; assumption. }
  intros [].
  apply triple_neutral_seq; [apply neutral_process_video | tauto |]. intros [].
  apply triple_neutral_last; [apply neutral_present_stage | tauto].
Qed.

Lemma body_tracked (C0 : list string) (E : env) (model : handle) (u : upload) :
  triple (tv (fun c l => c = C0 /\ l = no_locals)) (session_body E model u)
         (fun _ => tv (tracked C0)) (tv (tracked C0)).
Proof.
  unfold session_body. eapply triple_bind; [apply prepare_tracked |].
  intros [p1 p2]. apply transcode_tracked.
Qed.

Lemma handlers_neutral (e : exn) (h : M unit) : session_handlers e = Some h -> neutral h.
Proof.
  destruct e; cbn; intros Heq; inversion Heq; subst; unfold st_error; neutral_auto.
Qed.

Lemma cleanup_one_spec (q : option string) (w : world) :
  exists m, cleanup_one q w = (Ok tt, set_fs m w) /\
    (forall p, fs w !! p = None -> m !! p = None) /\
    (forall p, q = Some p -> p <> EmptyString -> m !! p = None).
Proof.
  destruct q as [p |].
  - cbn [cleanup_one]. destruct (String.eqb_spec p EmptyString) as [Hp | Hp].
    + exists (fs w). split; [rewrite set_fs_same; reflexivity |].
      split; [auto |]. intros p' Hq Hne. injection Hq as <-. contradiction.
    + rewrite bind_run. unfold os_path_exists, gets.
      destruct (fs w !! p) eqn:Hfound.
      * exists (delete p (fs w)). cbn. unfold os_remove. rewrite Hfound.
        split; [reflexivity |]. split.
        -- intros p' Hp'. destruct (decide (p = p')) as [<- | Hne];
             [apply lookup_delete_eq | rewrite lookup_delete_ne by exact Hne; exact Hp'].
        -- intros p' Hq _. injection Hq as <-. apply lookup_delete_eq.
      * exists (fs w). cbn. rewrite set_fs_same. split; [reflexivity |].
        split; [auto |]. intros p' Hq _. injection Hq as <-. exact Hfound.
  - exists (fs w). split; [rewrite set_fs_same; reflexivity |]. split; [auto | discriminate].
Qed.

Lemma cleanup_spec (w : world) :
  exists m, cleanup w = (Ok tt, set_fs m w) /\
    forall p, p ∈ locals_list (locals w) -> p <> EmptyString -> m !! p = None.
Proof.
  unfold cleanup, gets. rewrite !bind_run.
  destruct (cleanup_one_spec (input_video_path (locals w)) w) as (m1 & H1 & K1 & L1).
  rewrite H1. rewrite !bind_run.
  destruct (cleanup_one_spec (downscaled_video_path (locals w)) (set_fs m1 w)) as (m2 & H2 & K2 & L2).
  cbn [locals set_fs] in H2 |- *. rewrite H2. rewrite !bind_run.
  destruct (cleanup_one_spec (output_video_path (locals w)) (set_fs m2 (set_fs m1 w)))
    as (m3 & H3 & K3 & L3).
  cbn [locals set_fs] in H3 |- *. rewrite H3.
  exists m3. split; [rewrite !set_fs_set_fs; reflexivity |].
  intros p Hin Hne. unfold locals_list in Hin. cbn [fs set_fs] in K2, K3.
  destruct (input_video_path (locals w)) as [a |] eqn:Ha,
           (downscaled_video_path (locals w)) as [b |] eqn:Hb,
           (output_video_path (locals w)) as [c |] eqn:Hc;
    cbn in Hin; repeat (rewrite elem_of_cons in Hin || rewrite elem_of_app in Hin);
    repeat match goal with
           | H : _ \/ _ |- _ => destruct H
           | H : p = _ |- _ => subst p
           | H : _ ∈ [] |- _ => apply not_elem_of_nil in H; contradiction
           end; eauto.
Qed.

Lemma locals_list_length (l : frame_locals) : (length (locals_list l) <= 3)%nat.
Proof.
  destruct l as [[] [] []]; cbn; lia.
Qed.

(** C2: whatever an upload session does (it succeeds, FFmpeg fails, any
    exception is raised at any point of the [try] block, including ones
    that are not subclasses of [Exception]), the temporary files it
    created (at most three: upload, transcoded and output) no longer exist
    when the session ends. *)
Theorem session_removes_temp_files (E : env) (model : handle) (u : upload) (w : world) :
  let '(_, w') := session E model u w in
  exists created,
    created_tmp w' = created_tmp w ++ created /\ (length created <= 3)%nat /\
    forall p, p ∈ created -> fs w' !! p = None.
Proof.
  unfold session. rewrite bind_run. unfold modify. cbv beta iota.
  set (w0 := set_locals no_locals w).
  assert (Hbody : forall r1 w1, session_body E model u w0 = (r1, w1) ->
                              tv (tracked (created_tmp w)) w1).
  { intros r1 w1 Hrun. pose proof (body_tracked (created_tmp w) E model u w0) as H.
    rewrite Hrun in H. destruct r1; apply H; split; reflexivity. }
  unfold py_try. destruct (session_body E model u w0) as [r1 w1] eqn:Hrun.
  specialize (Hbody r1 w1 eq_refl).
  assert (Hhan : exists r2 w2,
             match r1 with
             | Ok _ => (r1, w1)
             | Raise e => match session_handlers e with Some h => h w1 | None => (r1, w1) end
             end = (r2, w2) /\ tv (tracked (created_tmp w)) w2).
  { destruct r1 as [a | e]; [eauto |].
    destruct (session_handlers e) as [h |] eqn:Hh; [| eauto].
    destruct (h w1) as [r2 w2] eqn:Hh2. exists r2, w2. split; [reflexivity |].
    destruct (handlers_neutral e h Hh w1) as [Hc Hl]. rewrite Hh2 in Hc, Hl. cbn in Hc, Hl.
    unfold tv in *. rewrite Hc, Hl. exact Hbody. }
  destruct Hhan as (r2 & w2 & -> & [Hc2 Hne2]).
  destruct (cleanup_spec w2) as (m3 & -> & Hgone).
  exists (locals_list (locals w2)). split; [exact Hc2 |].
  split; [apply locals_list_length |].
  intros p Hp. apply Hgone; [exact Hp |].
  rewrite Forall_forall in Hne2. apply Hne2. exact Hp.
Qed.

(* ------------------------------------------------------------------ *)
(** ** FFmpeg failures *)

Definition ffmpeg_failed_msg : string :=
  "FFmpeg failed to process the video. This can happen with certain video formats.".

Lemma ffmpeg_msg_not_generic (s : string) :
  ffmpeg_failed_msg <> "An unexpected error occurred: " +:+ s.
Proof. unfold ffmpeg_failed_msg. cbn. discriminate. Qed.

(** C5: when the upload was saved and FFmpeg then exits with a non-zero
    status, the [CalledProcessError] it raises is caught by its own clause:
    the session ends normally after showing the fixed FFmpeg message and
    the tool's stderr unchanged after "FFmpeg Error Details: "; the
    detection stage is never entered (no further message, no output
    temporary file); the message differs from the one any other
    [Exception] gets. *)
Theorem session_ffmpeg_failure (E : env) (model : handle) (u : upload) (w w1 : world)
    (p1 p2 : string) (rc : Z) (out err : string) (after : gmap string contents) :
  prepare_stage E u (set_locals no_locals w) = (Ok (p1, p2), w1) ->
  exec E (ffmpeg_command p1 p2) (fs w1) = Completed rc out err after ->
  rc <> 0 ->
  (let '(r, w') := session E model u w in
   r = Ok tt /\
   ui w' = ui w1 ++ [Error ffmpeg_failed_msg; Error ("FFmpeg Error Details: " +:+ err)] /\
   created_tmp w' = created_tmp w1 /\ output_video_path (locals w') = None) /\
  session_handlers (CalledProcessError rc (ffmpeg_command p1 p2) out err)
    = Some (st_error ffmpeg_failed_msg;; st_error ("FFmpeg Error Details: " +:+ err)) /\
  (forall cls msg,
     session_handlers (Exception cls msg) = Some (st_error ("An unexpected error occurred: " +:+ msg))
     /\ ffmpeg_failed_msg <> "An unexpected error occurred: " +:+ msg).
Proof.
  intros Hprep Hexec Hrc. split; [| split; [reflexivity |]].
  2: { intros cls msg. split; [reflexivity | apply ffmpeg_msg_not_generic]. }
  unfold session. rewrite bind_run. unfold modify. cbv beta iota.
  unfold py_try, session_body. rewrite bind_run, Hprep. cbn [fst snd].
  unfold transcode_stage. rewrite bind_run. unfold subprocess_run_check at 1.
  rewrite Hexec. replace (rc =? 0) with false by (symmetry; apply Z.eqb_neq; exact Hrc).
  cbn [session_handlers]. unfold st_error, st_event, modify.
  rewrite bind_run.
  match goal with |- context [cleanup ?x] => set (w2 := x) end.
  destruct (cleanup_spec w2) as (m3 & Hcl & _). rewrite Hcl.
  pose proof (prepare_tracked (created_tmp w) E u (set_locals no_locals w)) as Ht.
  rewrite Hprep in Ht. destruct (Ht (conj eq_refl eq_refl)) as [_ Hl].
  split; [reflexivity |]. cbn. rewrite <- app_assoc. split; [reflexivity |].
  split; [reflexivity |]. rewrite Hl. reflexivity.
Qed.

Lemma session_ffmpeg_failure_witness :
  (prepare_stage Demo.env0 Demo.bad_upload (set_locals no_locals Demo.world0)
     = (Ok ("/tmp/tmp0.mov", "/tmp/tmp1.mp4"), Demo.world_prepared) /\
   exec Demo.env0 (ffmpeg_command "/tmp/tmp0.mov" "/tmp/tmp1.mp4") (fs Demo.world_prepared)
     = Completed 1 EmptyString "Invalid data found when processing input" (fs Demo.world_prepared)) /\
  let '(r, w') := session Demo.env0 Demo.handle0 Demo.bad_upload Demo.world0 in
  r = Ok tt /\
  ui w' = ui Demo.world_prepared
          ++ [Error ffmpeg_failed_msg;
              Error ("FFmpeg Error Details: " +:+ "Invalid data found when processing input")] /\
  created_tmp w' = created_tmp Demo.world_prepared /\ output_video_path (locals w') = None.
Proof.
  assert (Hprep : prepare_stage Demo.env0 Demo.bad_upload (set_locals no_locals Demo.world0)
                  = (Ok ("/tmp/tmp0.mov", "/tmp/tmp1.mp4"), Demo.world_prepared))
    by (vm_compute; reflexivity).
  assert (Hexec : exec Demo.env0 (ffmpeg_command "/tmp/tmp0.mov" "/tmp/tmp1.mp4")
                    (fs Demo.world_prepared)
                  = Completed 1 EmptyString "Invalid data found when processing input"
                      (fs Demo.world_prepared))
    by (vm_compute; reflexivity).
  pose proof (session_ffmpeg_failure Demo.env0 Demo.handle0 Demo.bad_upload Demo.world0
                  Demo.world_prepared "/tmp/tmp0.mov" "/tmp/tmp1.mp4" 1 EmptyString
                  "Invalid data found when processing input" (fs Demo.world_prepared)
                  Hprep Hexec) as H.
  specialize (H ltac:(lia)). destruct H as [H _].
  split; [split; assumption |]. revert H.
  destruct (session Demo.env0 Demo.handle0 Demo.bad_upload Demo.world0) as [r w'].
  intros H. exact H.
Defined.

(* ------------------------------------------------------------------ *)
(** ** Detection that cannot start *)

(** [present_stage] on an empty output file reports that no video was
    produced. *)
Lemma present_stage_empty (E : env) (p : string) (w : world) :
  fs w !! p = Some (Raw []) ->
  present_stage E p w = (Ok tt, set_ui (ui w ++ [Error "Processing failed to produce a video file."]) w).
Proof.
  intros H. unfold present_stage, output_nonempty, os_path_exists, gets, os_path_getsize.
  rewrite !bind_run. rewrite H. simpl. rewrite bind_run, H. simpl. reflexivity.
Qed.

(** C10: the output temporary file is created empty; if [process_video]
    then cannot open the capture of the transcoded file, or cannot open
    the writer on the output file, it shows its message and returns
    normally without writing anything, and [main] goes on to the output
    check, which finds the empty file and reports
    "Processing failed to produce a video file.": the detection stage ends
    normally, with these two messages as its only effect after creating
    the output file. *)
Theorem detect_open_failure_reported (E : env) (model : handle) (p2 p3 : string) (w w1 : world) :
  NamedTemporaryFile ".mp4"
    (set_ui (ui w ++ [Info "Processing the standardized video for object detection..."]) w)
    = (Ok p3, w1) ->
  (fs w1 !! p2 ≫= decode E = None \/
   exists v, fs w1 !! p2 ≫= decode E = Some v /\
             writer_opens E p3 mp4v (s_fps v) (s_w v, s_h v) = false) ->
  fs w1 !! p3 = Some (Raw []) /\
  exists msg,
    msg ∈ ["Error: Could not open pre-processed video file at " +:+ p2;
           "Error: Could not open video writer."] /\
    detect_stage E model p2 w
      = (Ok tt, set_ui (ui w1 ++ [Error msg; Error "Processing failed to produce a video file."])
                  (set_locals (mkLocals (input_video_path (locals w1))
                                        (downscaled_video_path (locals w1)) (Some p3)) w1)).
Proof.
  intros Hntf Hfail.
  pose proof (NamedTemporaryFile_spec ".mp4"
                (set_ui (ui w ++ [Info "Processing the standardized video for object detection..."]) w))
    as Hs.
  rewrite Hntf in Hs. destruct Hs as (_ & _ & n & Hw1).
  assert (Hp3 : fs w1 !! p3 = Some (Raw [])).
  { rewrite Hw1. cbn. apply lookup_insert_eq. }
  split; [exact Hp3 |].
  set (l3 := mkLocals (input_video_path (locals w1)) (downscaled_video_path (locals w1)) (Some p3)).
  assert (Hpv : exists msg,
             msg ∈ ["Error: Could not open pre-processed video file at " +:+ p2;
                    "Error: Could not open video writer."] /\
             process_video E p2 p3 model (set_locals l3 w1)
               = (Ok tt, set_ui (ui w1 ++ [Error msg]) (set_locals l3 w1))).
  { destruct Hfail as [Hc | (v & Hc & Hwr)].
    - eexists. split; [left |].
      rewrite process_video_capture_fails; [reflexivity | exact Hc].
    - eexists. split; [right; left |].
      rewrite (process_video_writer_fails E p2 p3 model _ v); [reflexivity | exact Hc | exact Hwr]. }
  destruct Hpv as (msg & Hmsg & Hpv). exists msg. split; [exact Hmsg |].
  unfold detect_stage. rewrite bind_run. cbn [st_info st_event modify].
  rewrite bind_run, Hntf. rewrite bind_run. cbn [assign_output modify]. fold l3.
  rewrite bind_run, Hpv. rewrite present_stage_empty by exact Hp3.
  cbn [ui set_ui]. rewrite <- app_assoc. reflexivity.
Qed.

Lemma detect_open_failure_reported_witness :
  (NamedTemporaryFile ".mp4"
     (set_ui (ui Demo.world0 ++ [Info "Processing the standardized video for object detection..."])
             Demo.world0)
     = (Ok "/tmp/tmp0.mp4",
        snd (NamedTemporaryFile ".mp4"
               (set_ui [Info "Processing the standardized video for object detection..."]
                       Demo.world0))) /\
   fs (snd (NamedTemporaryFile ".mp4"
              (set_ui [Info "Processing the standardized video for object detection..."]
                      Demo.world0))) !! "/tmp/missing.mp4" ≫= decode Demo.env0 = None) /\
  fs (snd (NamedTemporaryFile ".mp4"
             (set_ui [Info "Processing the standardized video for object detection..."]
                     Demo.world0))) !! "/tmp/tmp0.mp4" = Some (Raw []) /\
  exists msg,
    msg ∈ ["Error: Could not open pre-processed video file at " +:+ "/tmp/missing.mp4";
           "Error: Could not open video writer."] /\
    detect_stage Demo.env0 Demo.handle0 "/tmp/missing.mp4" Demo.world0
      = (Ok tt,
         set_ui (ui (snd (NamedTemporaryFile ".mp4"
                            (set_ui [Info "Processing the standardized video for object detection..."]
                                    Demo.world0)))
                 ++ [Error msg; Error "Processing failed to produce a video file."])
           (set_locals (mkLocals None None (Some "/tmp/tmp0.mp4"))
              (snd (NamedTemporaryFile ".mp4"
                      (set_ui [Info "Processing the standardized video for object detection..."]
                              Demo.world0))))).
Proof.
  assert (Hntf : NamedTemporaryFile ".mp4"
     (set_ui (ui Demo.world0 ++ [Info "Processing the standardized video for object detection..."])
             Demo.world0)
     = (Ok "/tmp/tmp0.mp4",
        snd (NamedTemporaryFile ".mp4"
               (set_ui [Info "Processing the standardized video for object detection..."]
                       Demo.world0)))) by (vm_compute; reflexivity).
  assert (Hcap : fs (snd (NamedTemporaryFile ".mp4"
              (set_ui [Info "Processing the standardized video for object detection..."]
                      Demo.world0))) !! "/tmp/missing.mp4" ≫= decode Demo.env0 = None)
    by (vm_compute; reflexivity).
  split; [split; assumption |].
  exact (detect_open_failure_reported Demo.env0 Demo.handle0 "/tmp/missing.mp4" "/tmp/tmp0.mp4"
           Demo.world0 _ Hntf (or_introl Hcap)).
Defined.

(* ------------------------------------------------------------------ *)
(** ** A missing model file *)

(** C8: when [best.pt] does not exist, [main] shows the title, the
    introduction, the fixed error and hint messages and returns normally:
    nothing else happens, in particular the upload widget is not shown
    (whatever the user would upload is never looked at), no model is
    loaded and no file is created. *)
Theorem main_missing_model (E : env) (uploaded : option upload) (w : world) :
  fs w !! "best.pt" = None ->
  main E uploaded w
    = (Ok tt, set_ui (ui w ++
         [Title "YOLOv11 Object Detection";
          Write "This app uses a pre-configured model to detect objects in an uploaded video.";
          Error "Error: The model file was not found at the path: best.pt";
          Info "Please make sure the 'best.pt' file is located in the correct directory."]) w).
Proof.
  intros Hm. unfold main, st_title, st_write, st_event, modify, os_path_exists, gets.
  rewrite !bind_run. cbn [fs set_ui]. rewrite Hm. cbn [bool_decide decide_rel is_Some_dec negb].
  rewrite bind_run. cbn [st_error st_event modify ui set_ui].
  unfold st_info, st_event, modify. cbn [ui set_ui].
  rewrite <- !app_assoc. reflexivity.
Qed.

Lemma main_missing_model_witness :
  fs Demo.world_no_model !! "best.pt" = None /\
  main Demo.env0 (Some Demo.good_upload) Demo.world_no_model
    = (Ok tt, set_ui
         [Title "YOLOv11 Object Detection";
          Write "This app uses a pre-configured model to detect objects in an uploaded video.";
          Error "Error: The model file was not found at the path: best.pt";
          Info "Please make sure the 'best.pt' file is located in the correct directory."]
         Demo.world_no_model).
Proof.
  assert (Hm : fs Demo.world_no_model !! "best.pt" = None) by (vm_compute; reflexivity).
  split; [exact Hm |].
  exact (main_missing_model Demo.env0 (Some Demo.good_upload) Demo.world_no_model Hm).
Defined.

(* ------------------------------------------------------------------ *)
(** ** The resource cache *)

(** Streamlit runs the whole script again on every interaction, in the
    same process: the resource cache and the rest of the state carry over
    from one run to the next, and an exception that escapes a run is shown
    by Streamlit and ends that run only. *)
Fixpoint script_runs (E : env) (uploads : list (option upload)) : M unit :=
  match uploads with
  | [] => mret tt
  | u :: us => fun w => script_runs E us (snd (main E u w))
  end.

(** [m] leaves the resource cache and the count of YOLO constructions
    alone. *)
Definition cache_fixed {A} (m : M A) : Prop :=
  forall w, resource_cache (snd (m w)) = resource_cache w /\ yolo_calls (snd (m w)) = yolo_calls w.

Lemma cache_fixed_bind {A B} (m : M A) (k : A -> M B) :
  cache_fixed m -> (forall a, cache_fixed (k a)) -> cache_fixed (m ≫= k).
Proof.
  intros Hm Hk w. rewrite bind_run. specialize (Hm w).
  destruct (m w) as [[a | e] w'] eqn:Hmw; cbn in Hm |- *.
  - destruct (Hk a w') as [H1 H2]. destruct Hm as [H3 H4]. split; congruence.
  - exact Hm.
Qed.

Lemma cache_fixed_ret {A} (a : A) : cache_fixed (mret a : M A).
Proof. intros w. split; reflexivity. Qed.

Lemma cache_fixed_raise {A} (e : exn) : cache_fixed (py_raise e : M A).
Proof. intros w. split; reflexivity. Qed.

(** The primitives that touch neither field. *)
Ltac cache_prim :=
  intros w;
  repeat match goal with
         | |- context [match ?x with _ => _ end] => destruct x
         end;
  split; reflexivity.

Lemma cache_fixed_st_event (e : ui_event) : cache_fixed (st_event e).
Proof. cache_prim. Qed.

Lemma cache_fixed_os_path_exists (p : string) : cache_fixed (os_path_exists p).
Proof. cache_prim. Qed.

Lemma cache_fixed_os_path_getsize (E : env) (p : string) : cache_fixed (os_path_getsize E p).
Proof. unfold os_path_getsize. cache_prim. Qed.

Lemma cache_fixed_read_file (p : string) : cache_fixed (read_file p).
Proof. unfold read_file. cache_prim. Qed.

Lemma cache_fixed_os_remove (p : string) : cache_fixed (os_remove p).
Proof. unfold os_remove. cache_prim. Qed.

Lemma cache_fixed_write_file (E : env) (p : string) (c : contents) : cache_fixed (write_file E p c).
Proof. unfold write_file. cache_prim. Qed.

Lemma cache_fixed_subprocess (E : env) (cmd : list string) : cache_fixed (subprocess_run_check E cmd).
Proof. unfold subprocess_run_check. cache_prim. Qed.

Lemma cache_fixed_gets {A} (f : world -> A) : cache_fixed (gets f).
Proof. cache_prim. Qed.

Lemma cache_fixed_modify_locals (f : world -> frame_locals) :
  cache_fixed (modify (fun w => set_locals (f w) w)).
Proof. cache_prim. Qed.

Lemma cache_fixed_capture (E : env) (p : string) : cache_fixed (cv2_VideoCapture E p).
Proof. apply cache_fixed_gets. Qed.

Lemma cache_fixed_writer (E : env) (p : string) (fc : Z) (fps : Q) (size : Z * Z) :
  cache_fixed (cv2_VideoWriter E p fc fps size).
Proof. unfold cv2_VideoWriter. cache_prim. Qed.

Lemma cache_fixed_writer_write (p : string) (c : container) (img : image) :
  cache_fixed (writer_write p c img).
Proof. cache_prim. Qed.

Lemma cache_fixed_model_call (E : env) (h : handle) (f : image) (z : Z) (q : Q) :
  cache_fixed (model_call E h f z q).
Proof.
  unfold model_call. destruct (infer E h f z q); [apply cache_fixed_raise | apply cache_fixed_ret].
Qed.

Lemma cache_fixed_first_result (l : list result) : cache_fixed (first_result l).
Proof. destruct l; [apply cache_fixed_raise | apply cache_fixed_ret]. Qed.

Lemma cache_fixed_NamedTemporaryFile (sfx : string) : cache_fixed (NamedTemporaryFile sfx).
Proof.
  intros w. pose proof (NamedTemporaryFile_spec sfx w) as H.
  destruct (NamedTemporaryFile sfx w) as [[p | e] w'].
  - destruct H as (_ & _ & n & ->). split; reflexivity.
  - destruct H as (n & ->). split; reflexivity.
Qed.

Create HintDb cache.

#[local] Hint Resolve cache_fixed_bind cache_fixed_ret cache_fixed_raise cache_fixed_st_event
  cache_fixed_os_path_exists cache_fixed_os_path_getsize cache_fixed_read_file
  cache_fixed_os_remove cache_fixed_write_file cache_fixed_subprocess cache_fixed_gets
  cache_fixed_capture cache_fixed_writer cache_fixed_writer_write cache_fixed_model_call
  cache_fixed_first_result cache_fixed_NamedTemporaryFile : cache.

Ltac cache_auto :=
  repeat first
    [ progress (intros; cbv beta)
    | apply cache_fixed_bind
    | apply cache_fixed_modify_locals
    | match goal with
      | |- cache_fixed (match ?x with _ => _ end) => destruct x
      end
    | solve [eauto with cache] ].

Lemma cache_fixed_detect_loop (E : env) (h : handle) (p : string) (frames : list image) :
  forall out, cache_fixed (detect_loop E h p out frames).
Proof.
  induction frames as [| f rest IH]; intros out; cbn [detect_loop].
  - apply cache_fixed_ret.
  - cache_auto.
Qed.

#[local] Hint Resolve cache_fixed_detect_loop : cache.

Lemma cache_fixed_process_video (E : env) (p q : string) (h : handle) :
  cache_fixed (process_video E p q h).
Proof. unfold process_video, st_error. cache_auto. Qed.

Lemma cache_fixed_present_stage (E : env) (p : string) : cache_fixed (present_stage E p).
Proof.
  unfold present_stage, output_nonempty, st_video, st_download_button, st_error.
  apply cache_fixed_bind; [cache_auto |]. intros []; cache_auto.
Qed.

#[local] Hint Resolve cache_fixed_process_video cache_fixed_present_stage : cache.

Lemma cache_fixed_session_body (E : env) (model : handle) (u : upload) :
  cache_fixed (session_body E model u).
Proof.
  unfold session_body, prepare_stage, transcode_stage, detect_stage,
    assign_input, assign_downscaled, assign_output, st_info.
  cache_auto.
Qed.

Lemma cache_fixed_cleanup_one (q : option string) : cache_fixed (cleanup_one q).
Proof. unfold cleanup_one. cache_auto. Qed.

Lemma cache_fixed_cleanup : cache_fixed cleanup.
Proof. unfold cleanup. pose proof cache_fixed_cleanup_one. cache_auto. Qed.

Lemma cache_fixed_py_try {A} (body : M A) (handler : exn -> option (M A)) (fin : M unit) :
  cache_fixed body -> (forall e h, handler e = Some h -> cache_fixed h) -> cache_fixed fin ->
  cache_fixed (py_try body handler fin).
Proof.
  intros Hb Hh Hf w. unfold py_try. pose proof (Hb w) as [B1 B2].
  destruct (body w) as [r1 w1]. cbn in B1, B2.
  assert (Hmid : exists r2 w2,
             match r1 with
             | Ok _ => (r1, w1)
             | Raise e => match handler e with Some h => h w1 | None => (r1, w1) end
             end = (r2, w2) /\
             resource_cache w2 = resource_cache w /\ yolo_calls w2 = yolo_calls w).
  { destruct r1 as [a | e]; [eauto |].
    destruct (handler e) as [h |] eqn:He; [| eauto].
    destruct (Hh e h He w1) as [H1 H2]. destruct (h w1) as [r2 w2]. cbn in H1, H2.
    exists r2, w2. split; [reflexivity | split; congruence]. }
  destruct Hmid as (r2 & w2 & -> & H1 & H2). pose proof (Hf w2) as [F1 F2].
  destruct (fin w2) as [[[] | e] w3]; cbn in *; split; congruence.
Qed.

Lemma cache_fixed_session (E : env) (model : handle) (u : upload) :
  cache_fixed (session E model u).
Proof.
  unfold session. apply cache_fixed_bind; [cache_prim |]. intros [].
  apply cache_fixed_py_try.
  - apply cache_fixed_session_body.
  - intros e h He. destruct e; cbn in He; inversion He; subst; unfold st_error; cache_auto.
  - apply cache_fixed_cleanup.
Qed.

(** A predicate on the cache and the construction count. *)
Definition cv (S : gmap string handle -> nat -> Prop) (w : world) : Prop :=
  S (resource_cache w) (yolo_calls w).

(** From [c0] and [n0]: unchanged, or one YOLO object built for [p],
    which was not cached yet, and stored under [p]. *)
Definition cache_grown (p : string) (c0 : gmap string handle) (n0 : nat)
    (c : gmap string handle) (n : nat) : Prop :=
  (c = c0 /\ n = n0) \/
  (c0 !! p = None /\ exists h, c = <[p := h]> c0 /\ n = S n0).

Lemma triple_cache_fixed {A} (m : M A) (S : gmap string handle -> nat -> Prop) :
  cache_fixed m -> triple (cv S) m (fun _ => cv S) (cv S).
Proof.
  intros Hm w Hw. destruct (Hm w) as [H1 H2]. unfold cv in *.
  destruct (m w) as [[a | e] w']; cbn in H1, H2; rewrite H1, H2; exact Hw.
Qed.

Lemma triple_post {A} (P : world -> Prop) (m : M A) (Q Q' : A -> world -> Prop)
    (R R' : world -> Prop) :
  triple P m Q R -> (forall a w, Q a w -> Q' a w) -> (forall w, R w -> R' w) -> triple P m Q' R'.
Proof.
  intros H HQ HR w Hw. specialize (H w Hw). destruct (m w) as [[a | e] w']; auto.
Qed.

Lemma triple_try_except {A} (P : world -> Prop) (body : M A) (handler : exn -> M A)
    (Q : A -> world -> Prop) (R : world -> Prop) :
  triple P body Q R -> (forall e, triple R (handler e) Q R) ->
  triple P (try_except_Exception body handler) Q R.
Proof.
  intros Hb Hh w Hw. unfold try_except_Exception, py_try. specialize (Hb w Hw).
  destruct (body w) as [[a | e] w1]; cbn [m_ret].
  - exact Hb.
  - destruct (is_Exception e).
    + specialize (Hh e w1 Hb). destruct (handler e w1) as [[a | e'] w2]; exact Hh.
    + exact Hb.
Qed.

Lemma load_model_grown (E : env) (p : string) (c0 : gmap string handle) (n0 : nat) :
  triple (cv (fun c n => c = c0 /\ n = n0)) (load_model E p)
         (fun _ => cv (cache_grown p c0 n0)) (cv (cache_grown p c0 n0)).
Proof.
  intros w [Hc Hn]. unfold load_model, cache_resource.
  destruct (resource_cache w !! p) as [h |] eqn:Hp.
  - left. split; assumption.
  - unfold YOLO. destruct (yolo_error E p (fs w)) as [e |].
    + left. split; assumption.
    + right. unfold cv; cbn. rewrite <- Hc. split; [exact Hp |].
      eexists. split; [reflexivity | rewrite Hn; reflexivity].
Qed.

(** One run of the script builds at most one YOLO object, for [best.pt]
    when it was not cached, and keeps every cached object. *)
Lemma main_cache_grown (E : env) (u : option upload) (w : world) :
  cache_grown "best.pt" (resource_cache w) (yolo_calls w)
              (resource_cache (snd (main E u w))) (yolo_calls (snd (main E u w))).
Proof.
  set (c0 := resource_cache w). set (n0 := yolo_calls w).
  assert (Hgrow : forall c n, c = c0 /\ n = n0 -> cache_grown "best.pt" c0 n0 c n)
    by (intros c n H; left; exact H).
  assert (HgrowW : forall w', cv (fun c n => c = c0 /\ n = n0) w' -> cv (cache_grown "best.pt" c0 n0) w')
    by (intros w' H; apply Hgrow, H).
  assert (Ht : triple (cv (fun c n => c = c0 /\ n = n0)) (main E u)
                      (fun _ => cv (cache_grown "best.pt" c0 n0))
                      (cv (cache_grown "best.pt" c0 n0))).
  { unfold main.
    apply triple_bind with (Q := fun _ => cv (fun c n => c = c0 /\ n = n0));
      [eapply triple_post; [apply triple_cache_fixed, cache_fixed_st_event | auto | apply HgrowW] |].
    intros [].
    apply triple_bind with (Q := fun _ => cv (fun c n => c = c0 /\ n = n0));
      [eapply triple_post; [apply triple_cache_fixed, cache_fixed_st_event | auto | apply HgrowW] |].
    intros [].
    apply triple_bind with (Q := fun _ => cv (fun c n => c = c0 /\ n = n0));
      [eapply triple_post; [apply triple_cache_fixed, cache_fixed_os_path_exists | auto | apply HgrowW] |].
    intros found. destruct found; cbn [negb].
    - apply triple_bind with (Q := fun _ => cv (cache_grown "best.pt" c0 n0)).
      + apply triple_try_except.
        * eapply triple_bind; [apply load_model_grown |]. intros h.
          apply triple_cache_fixed. unfold st_success. cache_auto.
        * intros e. apply triple_cache_fixed. unfold st_error. cache_auto.
      + intros [h |].
        * apply triple_cache_fixed. unfold st_file_uploader.
          apply cache_fixed_bind; [cache_auto |]. intros [v |]; [apply cache_fixed_session | cache_auto].
        * apply triple_cache_fixed. cache_auto.
    - apply (triple_weaken (cv (cache_grown "best.pt" c0 n0))); [exact HgrowW |].
      apply triple_cache_fixed. unfold st_error, st_info. cache_auto. }
  specialize (Ht w (conj eq_refl eq_refl)). destruct (main E u w) as [[a | e] w']; exact Ht.
Qed.

Lemma script_runs_cache (E : env) (ups : list (option upload)) :
  forall w, let w' := snd (script_runs E ups w) in
    resource_cache w ⊆ resource_cache w' /\ (yolo_calls w' <= S (yolo_calls w))%nat /\
    (is_Some (resource_cache w !! "best.pt") ->
     resource_cache w' = resource_cache w /\ yolo_calls w' = yolo_calls w).
Proof.
  induction ups as [| u us IH]; intros w; cbn [script_runs].
  - simpl. split; [reflexivity | split; [lia | auto]].
  - destruct (main_cache_grown E u w) as [[Hc Hn] | (Hnone & h & Hc & Hn)].
    + destruct (IH (snd (main E u w))) as (H1 & H2 & H3). rewrite Hc, Hn in *.
      split; [exact H1 | split; [lia | exact H3]].
    + destruct (IH (snd (main E u w))) as (H1 & H2 & H3).
      assert (Hin : is_Some (resource_cache (snd (main E u w)) !! "best.pt")).
      { rewrite Hc, lookup_insert_eq. eexists; reflexivity. }
      destruct (H3 Hin) as [H4 H5]. split; [| split].
      * rewrite H4, Hc. apply insert_subseteq. exact Hnone.
      * lia.
      * intros [h' Hh']. congruence.
Qed.

(** C6 (as amended): [load_model(path)] returns the object cached for
    [path] whenever there is one, without looking at the file system; only
    on a miss does it run [YOLO(path)], propagating unchanged whatever
    exception the constructor raises (nothing is cached then), or caching
    and returning the new object. *)
Theorem load_model_outcome (E : env) (p : string) (w : world) :
  (forall h, resource_cache w !! p = Some h -> load_model E p w = (Ok h, w)) /\
  (resource_cache w !! p = None ->
   (forall e, yolo_error E p (fs w) = Some e -> load_model E p w = (Raise e, w)) /\
   (yolo_error E p (fs w) = None ->
    load_model E p w
      = (Ok (mkHandle p (yolo_calls w)),
         set_cache (<[p := mkHandle p (yolo_calls w)]> (resource_cache w)) (S (yolo_calls w)) w))).
Proof.
  unfold load_model, cache_resource. split.
  - intros h Hh. rewrite Hh. reflexivity.
  - intros Hn. rewrite Hn. unfold YOLO. split.
    + intros e He. rewrite He. reflexivity.
    + intros He. rewrite He. destruct w; reflexivity.
Qed.

Lemma load_model_outcome_witness :
  (resource_cache Demo.world_cached !! "best.pt" = Some Demo.handle0 /\
   load_model Demo.env0 "best.pt" Demo.world_cached = (Ok Demo.handle0, Demo.world_cached)) /\
  (resource_cache Demo.world_no_model !! "best.pt" = None /\
   yolo_error Demo.env0 "best.pt" (fs Demo.world_no_model)
     = Some (Exception "FileNotFoundError" "best.pt") /\
   load_model Demo.env0 "best.pt" Demo.world_no_model
     = (Raise (Exception "FileNotFoundError" "best.pt"), Demo.world_no_model)) /\
  (resource_cache Demo.world0 !! "best.pt" = None /\
   yolo_error Demo.env0 "best.pt" (fs Demo.world0) = None /\
   load_model Demo.env0 "best.pt" Demo.world0
     = (Ok (mkHandle "best.pt" (yolo_calls Demo.world0)),
        set_cache (<[ "best.pt" := mkHandle "best.pt" (yolo_calls Demo.world0)]>
                     (resource_cache Demo.world0)) (S (yolo_calls Demo.world0)) Demo.world0)).
Proof.
  assert (H1 : resource_cache Demo.world_cached !! "best.pt" = Some Demo.handle0)
    by (vm_compute; reflexivity).
  assert (H2 : resource_cache Demo.world_no_model !! "best.pt" = None) by (vm_compute; reflexivity).
  assert (H3 : yolo_error Demo.env0 "best.pt" (fs Demo.world_no_model)
                 = Some (Exception "FileNotFoundError" "best.pt")) by (vm_compute; reflexivity).
  assert (H4 : resource_cache Demo.world0 !! "best.pt" = None) by (vm_compute; reflexivity).
  assert (H5 : yolo_error Demo.env0 "best.pt" (fs Demo.world0) = None) by (vm_compute; reflexivity).
  split; [| split].
  - split; [exact H1 |].
    exact (proj1 (load_model_outcome Demo.env0 "best.pt" Demo.world_cached) Demo.handle0 H1).
  - split; [exact H2 | split; [exact H3 |]].
    exact (proj1 (proj2 (load_model_outcome Demo.env0 "best.pt" Demo.world_no_model) H2) _ H3).
  - split; [exact H4 | split; [exact H5 |]].
    exact (proj2 (proj2 (load_model_outcome Demo.env0 "best.pt" Demo.world0) H4) H5).
Defined.

(** C6 as stated fails: once [best.pt] has been loaded, removing the file
    does not make [load_model("best.pt")] fail; it returns the cached
    object. *)
Lemma load_model_missing_path_cached :
  let '(r1, w1) := load_model Demo.env0 "best.pt" Demo.world0 in
  let '(_, w2) := os_remove "best.pt" w1 in
  r1 = Ok Demo.handle0 /\ fs w2 !! "best.pt" = None /\
  load_model Demo.env0 "best.pt" w2 = (Ok Demo.handle0, w2).
Proof. vm_compute. repeat split. Qed.

(** C7: [load_model] memoises by path.  A path already in the cache gives
    the cached object back at once, and nothing at all changes (no YOLO
    object is built); a successful call leaves its object cached under
    the path and keeps every entry already there.  Over any sequence of
    runs of the script in one process the cache only grows, at most one
    YOLO object is ever built, and none once [best.pt] is cached (the only
    path the script loads). *)
Theorem load_model_cached (E : env) :
  (forall p h w, resource_cache w !! p = Some h -> load_model E p w = (Ok h, w)) /\
  (forall p h w w', load_model E p w = (Ok h, w') ->
     resource_cache w' !! p = Some h /\ resource_cache w ⊆ resource_cache w') /\
  (forall ups w, let w' := snd (script_runs E ups w) in
     resource_cache w ⊆ resource_cache w' /\ (yolo_calls w' <= S (yolo_calls w))%nat /\
     (is_Some (resource_cache w !! "best.pt") ->
      resource_cache w' = resource_cache w /\ yolo_calls w' = yolo_calls w)).
Proof.
  split; [| split].
  - intros p h w Hh. unfold load_model, cache_resource. rewrite Hh. reflexivity.
  - intros p h w w' Hrun. unfold load_model, cache_resource in Hrun.
    destruct (resource_cache w !! p) as [h0 |] eqn:Hp.
    + injection Hrun as <- <-. split; [exact Hp | reflexivity].
    + unfold YOLO in Hrun. destruct (yolo_error E p (fs w)); [discriminate |].
      injection Hrun as <- <-. cbn. split; [apply lookup_insert_eq |].
      apply insert_subseteq. exact Hp.
  - apply script_runs_cache.
Qed.

Lemma load_model_cached_witness :
  (resource_cache Demo.world_cached !! "best.pt" = Some Demo.handle0 /\
   load_model Demo.env0 "best.pt" Demo.world_cached = (Ok Demo.handle0, Demo.world_cached)) /\
  (load_model Demo.env0 "best.pt" Demo.world0 = (Ok Demo.handle0, Demo.world_cached) /\
   resource_cache Demo.world_cached !! "best.pt" = Some Demo.handle0) /\
  (is_Some (resource_cache Demo.world_cached !! "best.pt") /\
   resource_cache (snd (script_runs Demo.env0 [Some Demo.good_upload; None] Demo.world_cached))
     = resource_cache Demo.world_cached /\
   yolo_calls (snd (script_runs Demo.env0 [Some Demo.good_upload; None] Demo.world_cached))
     = yolo_calls Demo.world_cached).
Proof.
  assert (H1 : resource_cache Demo.world_cached !! "best.pt" = Some Demo.handle0)
    by (vm_compute; reflexivity).
  assert (H2 : load_model Demo.env0 "best.pt" Demo.world0 = (Ok Demo.handle0, Demo.world_cached))
    by (vm_compute; reflexivity).
  assert (H3 : is_Some (resource_cache Demo.world_cached !! "best.pt"))
    by (rewrite H1; eexists; reflexivity).
  destruct (load_model_cached Demo.env0) as (P1 & P2 & P3).
  split; [| split].
  - split; [exact H1 | exact (P1 "best.pt" Demo.handle0 Demo.world_cached H1)].
  - split; [exact H2 | exact (proj1 (P2 "best.pt" Demo.handle0 Demo.world0 Demo.world_cached H2))].
  - split; [exact H3 |].
    exact (proj2 (proj2 (P3 [Some Demo.good_upload; None] Demo.world_cached)) H3).
Defined.

(* ------------------------------------------------------------------ *)
(** ** What the detector cannot change *)

(** The videos shown on the page, in order. *)
Fixpoint videos (l : list ui_event) : list contents :=
  match l with
  | [] => []
  | Video d :: r => d :: videos r
  | _ :: r => videos r
  end.

(** Four-character code, frame rate, width, height and frame count. *)
Definition container_geometry (c : container) : Z * Q * Z * Z * nat :=
  (fourcc c, c_fps c, c_w c, c_h c, length (c_frames c)).

(** What [process_video] writes for an input stream. *)
Definition stream_geometry (v : stream) : Z * Q * Z * Z * nat :=
  (mp4v, s_fps v, s_w v, s_h v, length (s_frames v)).

(** The statements of an upload session before [process_video]. *)
Definition pipeline_prefix (E : env) (uploaded_video : upload) : M (string * string) :=
  paths ← prepare_stage E uploaded_video;
  subprocess_run_check E (ffmpeg_command paths.1 paths.2);;
  st_info "Processing the standardized video for object detection...";;
  output_video_path ← NamedTemporaryFile ".mp4";
  assign_output output_video_path;;
  mret (paths.2, output_video_path).

(** The stream [process_video] reads when an upload session started in
    [w] gets that far. *)
Definition detection_input (E : env) (uploaded_video : upload) (w : world) : option stream :=
  match pipeline_prefix E uploaded_video w with
  | (Ok (p2, _), w3) => fs w3 !! p2 ≫= decode E
  | (Raise _, _) => None
  end.

Lemma videos_app (l1 l2 : list ui_event) : videos (l1 ++ l2) = videos l1 ++ videos l2.
Proof. induction l1 as [| [] r IH]; cbn; rewrite ?IH; reflexivity. Qed.

(** [m] shows no video. *)
Definition novideo {A} (m : M A) : Prop :=
  forall w, videos (ui (snd (m w))) = videos (ui w).

Lemma novideo_bind {A B} (m : M A) (k : A -> M B) :
  novideo m -> (forall a, novideo (k a)) -> novideo (m ≫= k).
Proof.
  intros Hm Hk w. rewrite bind_run. specialize (Hm w).
  destruct (m w) as [[a | e] w'] eqn:Hmw; cbn in Hm |- *.
  - rewrite (Hk a w'). exact Hm.
  - exact Hm.
Qed.

Lemma novideo_ret {A} (a : A) : novideo (mret a : M A).
Proof. intros w. reflexivity. Qed.

Lemma novideo_raise {A} (e : exn) : novideo (py_raise e : M A).
Proof. intros w. reflexivity. Qed.

Ltac video_prim :=
  intros w;
  repeat match goal with
         | |- context [match ?x with _ => _ end] => destruct x
         end;
  reflexivity.

Lemma novideo_st_error (s : string) : novideo (st_error s).
Proof. intros w. cbn. rewrite videos_app, app_nil_r. reflexivity. Qed.

Lemma novideo_st_info (s : string) : novideo (st_info s).
Proof. intros w. cbn. rewrite videos_app, app_nil_r. reflexivity. Qed.

Lemma novideo_os_path_exists (p : string) : novideo (os_path_exists p).
Proof. video_prim. Qed.

Lemma novideo_os_remove (p : string) : novideo (os_remove p).
Proof. unfold os_remove. video_prim. Qed.

Lemma novideo_write_file (E : env) (p : string) (c : contents) : novideo (write_file E p c).
Proof. unfold write_file. video_prim. Qed.

Lemma novideo_subprocess (E : env) (cmd : list string) : novideo (subprocess_run_check E cmd).
Proof. unfold subprocess_run_check. video_prim. Qed.

Lemma novideo_gets {A} (f : world -> A) : novideo (gets f).
Proof. video_prim. Qed.

Lemma novideo_modify_locals (f : world -> frame_locals) :
  novideo (modify (fun w => set_locals (f w) w)).
Proof. video_prim. Qed.

Lemma novideo_capture (E : env) (p : string) : novideo (cv2_VideoCapture E p).
Proof. apply novideo_gets. Qed.

Lemma novideo_writer (E : env) (p : string) (fc : Z) (fps : Q) (size : Z * Z) :
  novideo (cv2_VideoWriter E p fc fps size).
Proof. unfold cv2_VideoWriter. video_prim. Qed.

Lemma novideo_writer_write (p : string) (c : container) (img : image) :
  novideo (writer_write p c img).
Proof. video_prim. Qed.

Lemma novideo_model_call (E : env) (h : handle) (f : image) (z : Z) (q : Q) :
  novideo (model_call E h f z q).
Proof. unfold model_call. destruct (infer E h f z q); [apply novideo_raise | apply novideo_ret]. Qed.

Lemma novideo_first_result (l : list result) : novideo (first_result l).
Proof. destruct l; [apply novideo_raise | apply novideo_ret]. Qed.

Lemma novideo_NamedTemporaryFile (sfx : string) : novideo (NamedTemporaryFile sfx).
Proof.
  intros w. pose proof (NamedTemporaryFile_spec sfx w) as H.
  destruct (NamedTemporaryFile sfx w) as [[p | e] w'].
  - destruct H as (_ & _ & n & ->). reflexivity.
  - destruct H as (n & ->). reflexivity.
Qed.

Create HintDb video.

#[local] Hint Resolve novideo_bind novideo_ret novideo_raise novideo_st_error novideo_st_info
  novideo_os_path_exists novideo_os_remove novideo_write_file novideo_subprocess novideo_gets
  novideo_capture novideo_writer novideo_writer_write novideo_model_call novideo_first_result
  novideo_NamedTemporaryFile : video.

Ltac video_auto :=
  repeat first
    [ progress (intros; cbv beta)
    | apply novideo_bind
    | apply novideo_modify_locals
    | match goal with
      | |- novideo (match ?x with _ => _ end) => destruct x
      end
    | solve [eauto with video] ].

Lemma novideo_detect_loop (E : env) (h : handle) (p : string) (frames : list image) :
  forall out, novideo (detect_loop E h p out frames).
Proof.
  induction frames as [| f rest IH]; intros out; cbn [detect_loop].
  - apply novideo_ret.
  - video_auto.
Qed.

#[local] Hint Resolve novideo_detect_loop : video.

Lemma novideo_process_video (E : env) (p q : string) (h : handle) :
  novideo (process_video E p q h).
Proof. unfold process_video. video_auto. Qed.

Lemma novideo_prepare_stage (E : env) (u : upload) : novideo (prepare_stage E u).
Proof. unfold prepare_stage, assign_input, assign_downscaled. video_auto. Qed.

Lemma novideo_pipeline_prefix (E : env) (u : upload) : novideo (pipeline_prefix E u).
Proof.
  unfold pipeline_prefix, assign_output. apply novideo_bind; [apply novideo_prepare_stage |].
  video_auto.
Qed.

Lemma novideo_cleanup : novideo cleanup.
Proof. unfold cleanup, cleanup_one. video_auto. Qed.

Lemma novideo_handlers (e : exn) (h : M unit) : session_handlers e = Some h -> novideo h.
Proof. destruct e; cbn; intros Heq; inversion Heq; subst; video_auto. Qed.

(** Whatever the detector answers, a loop that runs to the end appends
    one frame per input frame to the container and keeps its header. *)
Lemma detect_loop_shape (E : env) (model : handle) (q : string) (frames : list image) :
  forall out w, fs w !! q = Some (Mp4 out) ->
  match detect_loop E model q out frames w with
  | (Ok c, w') =>
      fs w' !! q = Some (Mp4 c) /\ fourcc c = fourcc out /\ c_fps c = c_fps out /\
      c_w c = c_w out /\ c_h c = c_h out /\
      length (c_frames c) = (length (c_frames out) + length frames)%nat
  | (Raise _, _) => True
  end.
Proof.
  induction frames as [| f rest IH]; intros out w Hq; cbn [detect_loop].
  - cbn. repeat split; [exact Hq | lia].
  - rewrite bind_run. unfold model_call. destruct (infer E model f IMG_SIZE CONF_THRESHOLD) as [e | rs];
      [exact I |]. cbn [mret M_ret m_ret]. rewrite bind_run.
    destruct rs as [| r0 rs]; [exact I |]. cbn [first_result mret M_ret m_ret].
    rewrite bind_run. unfold writer_write at 1.
    set (out' := mkContainer (fourcc out) (c_fps out) (c_w out) (c_h out) (c_frames out ++ [plot E r0])).
    specialize (IH out' (set_fs (<[q := Mp4 out']> (fs w)) w)).
    destruct (detect_loop E model q out' rest _) as [[c | e] w'].
    + destruct IH as (H1 & H2 & H3 & H4 & H5 & H6); [apply lookup_insert_eq |].
      repeat split; try assumption. rewrite H6. unfold out'. cbn. rewrite length_app. cbn. lia.
    + exact I.
Qed.

(** [process_video] on an empty output file: the file stays empty, or it
    holds what [stream_geometry] says for the stream of the input. *)
Lemma process_video_output (E : env) (p q : string) (model : handle) (w : world) :
  fs w !! q = Some (Raw []) ->
  match process_video E p q model w with
  | (Ok _, w') =>
      fs w' !! q = Some (Raw []) \/
      exists v c, fs w !! p ≫= decode E = Some v /\ fs w' !! q = Some (Mp4 c) /\
                  container_geometry c = stream_geometry v
  | (Raise _, _) => True
  end.
Proof.
  intros Hq. unfold process_video. rewrite bind_run. unfold cv2_VideoCapture, gets.
  destruct (fs w !! p ≫= decode E) as [v |] eqn:Hc.
  - cbv beta iota. rewrite bind_run. unfold cv2_VideoWriter. fold mp4v.
    destruct (writer_opens E q mp4v (s_fps v) (s_w v, s_h v)).
    + rewrite bind_run.
      set (c0 := mkContainer mp4v (s_fps v) (s_w v, s_h v).1 (s_w v, s_h v).2 []).
      pose proof (detect_loop_shape E model q (s_frames v) c0 (set_fs (<[q := Mp4 c0]> (fs w)) w)
                    (lookup_insert_eq _ _ _)) as Hs.
      destruct (detect_loop E model q c0 (s_frames v) _) as [[c | e] w'];
        [| exact I].
      destruct Hs as (H1 & H2 & H3 & H4 & H5 & H6). right. exists v, c.
      split; [reflexivity |]. split; [exact H1 |].
      unfold container_geometry, stream_geometry. rewrite H2, H3, H4, H5, H6. reflexivity.
    + left. exact Hq.
  - left. exact Hq.
Qed.

(** [present_stage] shows at most one video: the contents of the output
    file, when it is not empty. *)
Lemma present_videos (E : env) (p : string) (w : world) :
  exists vs, videos (ui (snd (present_stage E p w))) = videos (ui w) ++ vs /\
    (vs = [] \/ exists d, vs = [d] /\ fs w !! p = Some d /\ d <> Raw []).
Proof.
  unfold present_stage, output_nonempty, os_path_exists, gets, os_path_getsize.
  rewrite !bind_run. destruct (fs w !! p) as [d |] eqn:Hp; simpl.
  - rewrite bind_run, Hp. simpl.
    assert (Hmsg : exists vs, videos (ui (snd (st_error "Processing failed to produce a video file." w)))
                               = videos (ui w) ++ vs /\ vs = []).
    { exists []. rewrite app_nil_r. split; [apply novideo_st_error | reflexivity]. }
    assert (Hshow : d <> Raw [] ->
              exists vs, videos (ui (snd ((read_file p ≫= fun video_bytes =>
                 st_video video_bytes ;;
                 st_download_button "Download Processed Video" video_bytes
                   "video_with_detections.mp4" "video/mp4") w))) = videos (ui w) ++ vs /\
                 (vs = [] \/ exists d', vs = [d'] /\ Some d = Some d' /\ d' <> Raw [])).
    { intros Hne. rewrite bind_run. unfold read_file at 1. rewrite Hp. exists [d].
      cbn. rewrite bind_run. cbn. rewrite !videos_app. cbn. rewrite <- app_assoc.
      split; [reflexivity |]. right. exists d. auto. }
    destruct d as [b | c].
    + destruct b as [| x b]; simpl.
      * destruct Hmsg as (vs & H1 & ->). exists []. auto.
      * apply Hshow. discriminate.
    + destruct (container_size E c) as [| n]; simpl.
      * destruct Hmsg as (vs & H1 & ->). exists []. auto.
      * apply Hshow. discriminate.
  - exists []. rewrite app_nil_r. split; [apply novideo_st_error | left; reflexivity].
Qed.

(** The output file of a session is empty when [process_video] starts. *)
Lemma pipeline_prefix_output_empty (E : env) (u : upload) (w : world) :
  match pipeline_prefix E u w with
  | (Ok (_, p3), w5) => fs w5 !! p3 = Some (Raw [])
  | (Raise _, _) => True
  end.
Proof.
  unfold pipeline_prefix. rewrite bind_run. destruct (prepare_stage E u w) as [[ps | e] w1]; [| exact I].
  rewrite bind_run. destruct (subprocess_run_check E _ w1) as [[[] | e] w2]; [| exact I].
  rewrite bind_run. cbn [st_info st_event modify].
  rewrite bind_run. pose proof (NamedTemporaryFile_spec ".mp4"
    (set_ui (ui w2 ++ [Info "Processing the standardized video for object detection..."]) w2)) as Hs.
  destruct (NamedTemporaryFile ".mp4" _) as [[p3 | e] w4]; [| exact I].
  destruct Hs as (_ & _ & n & ->). cbn. apply lookup_insert_eq.
Qed.

(** The body of a session is [pipeline_prefix] followed by detection and
    presentation. *)
Lemma session_body_prefix (E : env) (model : handle) (u : upload) (w : world) :
  session_body E model u w
  = (ps ← pipeline_prefix E u; process_video E ps.1 ps.2 model;; present_stage E ps.2) w.
Proof.
  unfold session_body, pipeline_prefix, transcode_stage, detect_stage.
  rewrite !bind_run. destruct (prepare_stage E u w) as [[ps | e] w1]; [| reflexivity].
  rewrite !bind_run. destruct (subprocess_run_check E _ w1) as [[[] | e] w2]; [| reflexivity].
  rewrite !bind_run. destruct (st_info _ w2) as [[[] | e] w3]; [| reflexivity].
  rewrite !bind_run. destruct (NamedTemporaryFile ".mp4" w3) as [[p3 | e] w4]; [| reflexivity].
  rewrite !bind_run. destruct (assign_output p3 w4) as [[[] | e] w5]; reflexivity.
Qed.

(** An upload session shows at most one video, and what it shows is an
    MP4 container whose geometry and frame count are those of the stream
    [detection_input] reads, which the detector has no part in. *)
Lemma session_videos (E : env) (model : handle) (u : upload) (w : world) :
  exists vs,
    videos (ui (snd (session E model u w))) = videos (ui w) ++ vs /\ (length vs <= 1)%nat /\
    forall d, d ∈ vs -> exists c v,
      d = Mp4 c /\ detection_input E u (set_locals no_locals w) = Some v /\
      container_geometry c = stream_geometry v.
Proof.
  assert (Hbody : exists vs,
    videos (ui (snd (session_body E model u (set_locals no_locals w)))) = videos (ui w) ++ vs /\
    (length vs <= 1)%nat /\
    forall d, d ∈ vs -> exists c v,
      d = Mp4 c /\ detection_input E u (set_locals no_locals w) = Some v /\
      container_geometry c = stream_geometry v).
  { rewrite session_body_prefix, bind_run. unfold detection_input.
    pose proof (pipeline_prefix_output_empty E u (set_locals no_locals w)) as He.
    pose proof (novideo_pipeline_prefix E u (set_locals no_locals w)) as Hn.
    destruct (pipeline_prefix E u (set_locals no_locals w)) as [[[p2 p3] | e] w5];
      cbn [snd fst] in Hn, He |- *.
    - rewrite bind_run.
      pose proof (process_video_output E p2 p3 model w5 He) as Hpv.
      pose proof (novideo_process_video E p2 p3 model w5) as Hn2.
      destruct (process_video E p2 p3 model w5) as [[[] | e] w6]; cbn [snd] in Hn2 |- *.
      + destruct (present_videos E p3 w6) as (vs & Hvs & Hcase).
        exists vs. rewrite Hvs, Hn2, Hn. split; [reflexivity |].
        destruct Hcase as [-> | (d & -> & Hd & Hne)].
        * split; [cbn; lia |]. intros d Hd. apply not_elem_of_nil in Hd. contradiction.
        * split; [cbn; lia |]. intros d' Hd'. apply list_elem_of_singleton in Hd'. subst d'.
          destruct Hpv as [Hraw | (v & c & Hv & Hc & Hg)]; [congruence |].
          exists c, v. split; [congruence | split; [exact Hv | exact Hg]].
      + exists []. rewrite app_nil_r, Hn2, Hn. split; [reflexivity |].
        split; [cbn; lia |]. intros d Hd. apply not_elem_of_nil in Hd. contradiction.
    - exists []. rewrite app_nil_r, Hn. split; [reflexivity |].
      split; [cbn; lia |]. intros d Hd. apply not_elem_of_nil in Hd. contradiction. }
  unfold session. rewrite bind_run. unfold modify at 1. cbv beta iota. unfold py_try.
  destruct Hbody as (vs & Hvs & Hlen & Hd).
  destruct (session_body E model u (set_locals no_locals w)) as [r1 w1]. cbn [snd] in Hvs.
  assert (Hmid : exists r2 w2,
             match r1 with
             | Ok _ => (r1, w1)
             | Raise e => match session_handlers e with Some h => h w1 | None => (r1, w1) end
             end = (r2, w2) /\ videos (ui w2) = videos (ui w1)).
  { destruct r1 as [a | e]; [do 2 eexists; split; reflexivity |].
    destruct (session_handlers e) as [h |] eqn:Hh; [| do 2 eexists; split; reflexivity].
    pose proof (novideo_handlers e h Hh w1) as Hn. destruct (h w1) as [r2 w2].
    exists r2, w2. split; [reflexivity | exact Hn]. }
  destruct Hmid as (r2 & w2 & -> & Hn2). pose proof (novideo_cleanup w2) as Hn3.
  destruct (cleanup w2) as [[[] | e] w3]; cbn [snd] in Hn3 |- *;
    exists vs; (split; [congruence | split; assumption]).
Qed.

Lemma detection_input_env (E1 E2 : env) (u : upload) (w : world) :
  decode E1 = decode E2 -> exec E1 = exec E2 -> write_error E1 = write_error E2 ->
  detection_input E1 u w = detection_input E2 u w.
Proof. destruct E1, E2; cbn; intros -> -> ->. reflexivity. Qed.

(** C9: two upload sessions of the same upload from the same state, with
    the same model object, whose environments agree on how files are
    decoded, on FFmpeg and on file writes but may differ in everything the
    detector does (its results, its rendering, even its exceptions):
    each shows at most one video, and when both show one, the two are MP4
    containers with the same four-character code, frame rate, width,
    height and number of frames. *)
Theorem pipeline_output_geometry (E1 E2 : env) (model : handle) (u : upload) (w : world) :
  decode E1 = decode E2 -> exec E1 = exec E2 -> write_error E1 = write_error E2 ->
  exists vs1 vs2,
    videos (ui (snd (session E1 model u w))) = videos (ui w) ++ vs1 /\
    videos (ui (snd (session E2 model u w))) = videos (ui w) ++ vs2 /\
    (length vs1 <= 1)%nat /\ (length vs2 <= 1)%nat /\
    forall d1 d2, d1 ∈ vs1 -> d2 ∈ vs2 ->
      exists c1 c2, d1 = Mp4 c1 /\ d2 = Mp4 c2 /\ container_geometry c1 = container_geometry c2.
Proof.
  intros Hd He Hw.
  destruct (session_videos E1 model u w) as (vs1 & A1 & L1 & G1).
  destruct (session_videos E2 model u w) as (vs2 & A2 & L2 & G2).
  exists vs1, vs2. split; [exact A1 | split; [exact A2 | split; [exact L1 | split; [exact L2 |]]]].
  intros d1 d2 H1 H2.
  destruct (G1 d1 H1) as (c1 & v1 & -> & Hv1 & Hg1).
  destruct (G2 d2 H2) as (c2 & v2 & -> & Hv2 & Hg2).
  rewrite (detection_input_env E1 E2 u _ Hd He Hw), Hv2 in Hv1. injection Hv1 as ->.
  exists c1, c2. split; [reflexivity | split; [reflexivity | congruence]].
Qed.

Lemma pipeline_output_geometry_witness :
  (decode Demo.env0 = decode Demo.env1 /\ exec Demo.env0 = exec Demo.env1 /\
   write_error Demo.env0 = write_error Demo.env1) /\
  (exists vs1 vs2,
    videos (ui (snd (session Demo.env0 Demo.handle0 Demo.good_upload Demo.world0)))
      = videos (ui Demo.world0) ++ vs1 /\
    videos (ui (snd (session Demo.env1 Demo.handle0 Demo.good_upload Demo.world0)))
      = videos (ui Demo.world0) ++ vs2 /\
    (length vs1 <= 1)%nat /\ (length vs2 <= 1)%nat /\
    forall d1 d2, d1 ∈ vs1 -> d2 ∈ vs2 ->
      exists c1 c2, d1 = Mp4 c1 /\ d2 = Mp4 c2 /\ container_geometry c1 = container_geometry c2) /\
  length (videos (ui (snd (session Demo.env0 Demo.handle0 Demo.good_upload Demo.world0)))) = 1%nat /\
  videos (ui (snd (session Demo.env0 Demo.handle0 Demo.good_upload Demo.world0)))
    <> videos (ui (snd (session Demo.env1 Demo.handle0 Demo.good_upload Demo.world0))).
Proof.
  split; [split; [reflexivity | split; reflexivity] |].
  split; [exact (pipeline_output_geometry Demo.env0 Demo.env1 Demo.handle0 Demo.good_upload
                   Demo.world0 eq_refl eq_refl eq_refl) |].
  split; [vm_compute; reflexivity | vm_compute; discriminate].
Defined.
